(** * The in-game clock of the spawn-timer dashboard (src/app/page.tsx)

    A shallow embedding of the pure clock functions of the page:
    [formatTwoDigits], [formatMinecraftClock],
    [getMinecraftPhaseFromMinutes], [normalizeMinecraftSeconds],
    [deriveLiveMinecraftClock] and [deriveMinecraftClockAtDate], with the
    properties the specification states about them.

    The arithmetic of the page is read twice.
    - Over the rationals: a JavaScript [number] is an exact rational ([Q]);
      an integer-valued one (the result of [Math.floor], of [parseInt], a
      time value in milliseconds) is a [Z], and [NaN] is the [None] of an
      [option].  Nothing is rounded.  This is what the lookup and the
      normalisation compute on whole minutes and whole seconds, where
      every operation of theirs is exact, and what the two derivations
      return up to [horizonMs] milliseconds after the observation, where
      the rounding of a double stays far below the 1/125 of a simulated
      second that separates two totals.  The general properties are proved
      on this reading.
    - Over binary64 (module [F64]): a [number] is an IEEE-754 double and
      every operation rounds as the runtime does.  This reading is
      evaluated: it tells where the first one stops being the code (far
      instants, fractions of a minute next to a boundary, the division by
      50 of [formatMinecraftClock]).

    Further conventions.
    - An instant is the time value of a valid date: the milliseconds since
      the epoch that [Date.now()] and [getTime()] give.
    - A string is a [string] holding the UTF-8 encoding of the JavaScript
      string, which is how a literal of this file reads.
    - [null] and [undefined] are the [None] of an [option]. *)

From Stdlib Require Import ZArith QArith Qround Qminmax Lia Lqa Bool List.
From Stdlib Require Import Ascii String DecimalString.
From Stdlib Require PrimFloat FloatOps SpecFloat.
Import ListNotations.

Local Open Scope string_scope.
Local Open Scope Z_scope.

(** ** The part of the JavaScript runtime that the page calls *)

Module JS.

(** [ToBoolean] on a [string | null | undefined]: the empty string, [null]
    and [undefined] are falsy. *)
Definition truthy (v : option string) : bool :=
  match v with
  | None => false
  | Some EmptyString => false
  | Some (String _ _) => true
  end.

(** [s.split(sep)] for a separator of one character.  The result always has
    one segment more than [s] has separators. *)
Fixpoint split (sep : ascii) (s : string) : list string :=
  match s with
  | EmptyString => [EmptyString]
  | String c rest =>
      if Ascii.eqb c sep then EmptyString :: split sep rest
      else match split sep rest with
           | [] => [String c EmptyString]
           | seg :: segs => String c seg :: segs
           end
  end.

(** Array destructuring [const [a, b] = xs]: a missing element is
    [undefined]. *)
Definition element {A : Type} (xs : list A) (i : nat) : option A :=
  nth_error xs i.

(** [StrWhiteSpaceChar] of ECMA-262 (white space and line terminators), read
    on the UTF-8 encoding: [skip_space s] is [Some rest] when [s] starts
    with one such character. *)
Definition skip_space (s : string) : option string :=
  match s with
  | String c1 r1 =>
      let n1 := nat_of_ascii c1 in
      if ((n1 =? 9) || (n1 =? 10) || (n1 =? 11) || (n1 =? 12) || (n1 =? 13)
          || (n1 =? 32))%nat
      then Some r1
      else
        match r1 with
        | String c2 r2 =>
            let n2 := nat_of_ascii c2 in
            if ((n1 =? 194) && (n2 =? 160))%nat then Some r2 (* U+00A0 *)
            else
              match r2 with
              | String c3 r3 =>
                  let n3 := nat_of_ascii c3 in
                  if ((n1 =? 225) && (n2 =? 154) && (n3 =? 128)      (* U+1680 *)
                      || (n1 =? 226) && (n2 =? 128)
                         && ((128 <=? n3) && (n3 <=? 138)            (* U+2000..U+200A *)
                             || (n3 =? 168) || (n3 =? 169)           (* U+2028, U+2029 *)
                             || (n3 =? 175))                         (* U+202F *)
                      || (n1 =? 226) && (n2 =? 129) && (n3 =? 159)   (* U+205F *)
                      || (n1 =? 227) && (n2 =? 128) && (n3 =? 128)   (* U+3000 *)
                      || (n1 =? 239) && (n2 =? 187) && (n3 =? 191))%nat (* U+FEFF *)
                  then Some r3
                  else None
              | EmptyString => None
              end
        | EmptyString => None
        end
  | EmptyString => None
  end.

(** [trimStart]: drop the leading white space.  The fuel is the length of
    the string, an upper bound of the number of characters dropped. *)
Fixpoint trimStart_fuel (fuel : nat) (s : string) : string :=
  match fuel with
  | O => s
  | S fuel' =>
      match skip_space s with
      | Some rest => trimStart_fuel fuel' rest
      | None => s
      end
  end.

Definition trimStart (s : string) : string := trimStart_fuel (String.length s) s.

Definition digit_value (c : ascii) : option Z :=
  let n := Z.of_nat (nat_of_ascii c) in
  if (48 <=? n) && (n <=? 57) then Some (n - 48) else None.

(** The value of the longest prefix of decimal digits; [acc] is the value of
    the digits already read, [None] when none was. *)
Fixpoint digits_prefix (acc : option Z) (s : string) : option Z :=
  match s with
  | EmptyString => acc
  | String c rest =>
      match digit_value c with
      | Some d =>
          digits_prefix
            (Some (10 * (match acc with Some a => a | None => 0 end) + d)) rest
      | None => acc
      end
  end.

(** [Number.parseInt(s, 10)]: leading white space, an optional sign, then
    the longest run of decimal digits; [NaN] ([None]) when there is no
    digit.  With the radix given as 10 no [0x] prefix is recognised.  The
    integer is kept exact; a double rounds it beyond 2^53, far outside the
    ranges the page compares it with. *)
Definition parseInt (s : string) : option Z :=
  let trimmed := trimStart s in
  let '(sign, body) :=
    match trimmed with
    | String "-" rest => (-1, rest)
    | String "+" rest => (1, rest)
    | _ => (1, trimmed)
    end in
  match digits_prefix None body with
  | Some n => Some (sign * n)
  | None => None
  end.

(** [value.toString()] on an integer-valued number. *)
Definition toString (value : Z) : string := NilZero.string_of_int (Z.to_int value).

(** The first [k] characters of [fill] repeated; [cur] is what is left of
    the copy of [fill] being read. *)
Fixpoint filler (k : nat) (fill cur : string) : string :=
  match k with
  | O => EmptyString
  | S k' =>
      match cur with
      | String c rest => String c (filler k' fill rest)
      | EmptyString =>
          match fill with
          | String c rest => String c (filler k' fill rest)
          | EmptyString => EmptyString
          end
      end
  end.

(** [s.padStart(targetLength, fill)]. *)
Definition padStart (targetLength : nat) (fill s : string) : string :=
  filler (targetLength - String.length s) fill fill ++ s.

(** [Math.floor], [Math.max] and the remainder operator [%], whose result
    has the sign of the dividend (the quotient is truncated towards zero).
    The divisors of the page are positive constants. *)
Definition floor (x : Q) : Z := Qfloor x.

Definition max (x y : Q) : Q := Qmax x y.

Definition trunc (x : Q) : Z := Z.quot (Qnum x) (Zpos (Qden x)).

Definition rem (x y : Q) : Q := (x - y * inject_Z (trunc (x / y)))%Q.

Definition ge (x y : Q) : bool := Qle_bool y x.
Definition lt (x y : Q) : bool := negb (Qle_bool y x).

(** How the evaluation of a function body ends: with a value, or with the
    [TypeError] that reading a property of [null] or [undefined] throws.
    No other operation of the clock functions can throw. *)
Inductive completion (A : Type) : Type :=
| Normal (value : A)
| TypeError.

Arguments Normal {A} value.
Arguments TypeError {A}.

Definition bind {A B : Type} (c : completion A) (k : A -> completion B)
  : completion B :=
  match c with
  | Normal a => k a
  | TypeError => TypeError
  end.

(** [obj.field] and [obj?.field]. *)
Definition member {R A : Type} (obj : option R) (field : R -> A) : completion A :=
  match obj with
  | Some r => Normal (field r)
  | None => TypeError
  end.

Definition optional {R A : Type} (obj : option R) (field : R -> option A)
  : option A :=
  match obj with
  | Some r => field r
  | None => None
  end.

(** [new Date(v).getTime()] for a [v : string | null], given what it is on
    strings: [new Date(null)] is the epoch. *)
Definition Date_getTime (parse : string -> option Z) (v : option string)
  : option Z :=
  match v with
  | Some s => parse s
  | None => Some 0
  end.

(** [ToString] on a [string | undefined], as [parseInt] applies it to its
    argument. *)
Definition ToString (v : option string) : string :=
  match v with
  | Some s => s
  | None => "undefined"
  end.

End JS.

Notation "x <- c ;; k" := (JS.bind c (fun x => k))
  (at level 61, c at next level, right associativity).

(** ** The clock functions of src/app/page.tsx, over the rationals

    Every operation is exact here.  The functions below are the functions
    of the page wherever the page rounds nothing: on whole minutes and whole
    seconds, and in the two derivations up to [horizonMs] after the
    observation.  Module [F64] further down has them over binary64. *)

Record SpawnTimerRow := {
  id : option (Z + string);
  text : option string;
  next_spawn : option string;
  ingame_time : option string;
  ingame_time_saved_at : option string
}.

Definition MINECRAFT_CYCLE_SECONDS : Q := 1200.
Definition MINECRAFT_DAY_SECONDS : Q := 600.
Definition MINECRAFT_DUSK_SECONDS : Q := 90.
Definition MINECRAFT_NIGHT_SECONDS : Q := 420.
Definition MINECRAFT_DAWN_SECONDS : Q := 90.
Definition MINECRAFT_HOUR_SECONDS : Q := 50.
Definition MINECRAFT_MINUTES_PER_DAY : Q := 24 * 60.
Definition MINECRAFT_SECONDS_PER_REAL_SECOND : Q :=
  (60 * 60) / MINECRAFT_HOUR_SECONDS.
Definition MINECRAFT_SECONDS_PER_DAY : Q := MINECRAFT_MINUTES_PER_DAY * 60.

Definition formatTwoDigits (value : Z) : string :=
  JS.padStart 2 "0" (JS.toString value).

Record MinecraftPhaseDetails := {
  phase : string;
  timeLabel : option string
}.

(** The four phase names the page displays: dawn, day, dusk and night. *)
Definition Aube : string := "Aube".
Definition Jour : string := "Jour".
Definition Crepuscule : string := "Crépuscule".
Definition Nuit : string := "Nuit".

(** The local constant [normalizedMinutes] of
    [getMinecraftPhaseFromMinutes]. *)
Definition normalizedMinutes (minutes : Q) : Q :=
  JS.rem (JS.rem minutes MINECRAFT_MINUTES_PER_DAY + MINECRAFT_MINUTES_PER_DAY)
         MINECRAFT_MINUTES_PER_DAY.

Definition getMinecraftPhaseFromMinutes (minutes : Q) : MinecraftPhaseDetails :=
  let normalizedMinutes := normalizedMinutes minutes in
  let timeLabel :=
    formatTwoDigits (JS.floor (normalizedMinutes / 60)) ++ ":" ++
    formatTwoDigits (JS.floor (JS.rem normalizedMinutes 60)) in
  if JS.ge normalizedMinutes 273 && JS.lt normalizedMinutes 387 then
    {| phase := Aube; timeLabel := Some timeLabel |}
  else if JS.ge normalizedMinutes 387 && JS.lt normalizedMinutes 1057 then
    {| phase := Jour; timeLabel := Some timeLabel |}
  else if JS.ge normalizedMinutes 1057 && JS.lt normalizedMinutes 1188 then
    {| phase := Crepuscule; timeLabel := Some timeLabel |}
  else
    {| phase := Nuit; timeLabel := Some timeLabel |}.

Definition getPhasePreviewFromMinutes (totalMinutes : Q) : MinecraftPhaseDetails :=
  getMinecraftPhaseFromMinutes totalMinutes.

Definition normalizeMinecraftSeconds (seconds : Q) : Q :=
  JS.rem (JS.rem seconds MINECRAFT_SECONDS_PER_DAY + MINECRAFT_SECONDS_PER_DAY)
         MINECRAFT_SECONDS_PER_DAY.

Record LiveClock := {
  clock : string;
  phaseDetails : MinecraftPhaseDetails
}.

Section ClockEngine.

(** [Date.parse]: the time value of a date string, in milliseconds since the
    epoch, and [NaN] ([None]) when the string is not a date.  What a runtime
    accepts besides the ISO format is left to it by ECMA-262, so the
    functions are read for any parser. *)
Variable Date_parse : string -> option Z.

(** [nowMs] is a time value, as [Date.now()] gives. *)
Definition deriveLiveMinecraftClock
    (row : option SpawnTimerRow) (nowMs : Z)
  : JS.completion (option LiveClock) :=
  if negb (JS.truthy (JS.optional row ingame_time))
     || negb (JS.truthy (JS.optional row ingame_time_saved_at))
  then JS.Normal None
  else
    row_ingame_time_saved_at <- JS.member row ingame_time_saved_at ;;
    match JS.Date_getTime Date_parse row_ingame_time_saved_at with
    | None => JS.Normal None
    | Some savedAtMs =>
        row_ingame_time <- JS.member row ingame_time ;;
        parts <- JS.member row_ingame_time (JS.split ":") ;;
        let hoursPart := JS.element parts 0 in
        let minutesPart := JS.element parts 1 in
        if negb (JS.truthy hoursPart) || negb (JS.truthy minutesPart)
        then JS.Normal None
        else
          match JS.parseInt (JS.ToString hoursPart),
                JS.parseInt (JS.ToString minutesPart) with
          | Some hours, Some minutes =>
              if (hours <? 0) || (hours >? 23)
                 || (minutes <? 0) || (minutes >? 59)
              then JS.Normal None
              else
                let baseSeconds := inject_Z ((hours * 60 + minutes) * 60) in
                let elapsedRealSeconds :=
                  JS.max 0 (inject_Z (nowMs - savedAtMs) / 1000) in
                let elapsedMinecraftSeconds :=
                  (elapsedRealSeconds * MINECRAFT_SECONDS_PER_REAL_SECOND)%Q in
                let totalSeconds := (baseSeconds + elapsedMinecraftSeconds)%Q in
                let normalizedSeconds := normalizeMinecraftSeconds totalSeconds in
                let currentHours :=
                  Z.rem (JS.floor (normalizedSeconds / 3600)) 24 in
                let currentMinutes :=
                  JS.floor (JS.rem normalizedSeconds 3600 / 60) in
                let clock :=
                  formatTwoDigits currentHours ++ ":" ++
                  formatTwoDigits currentMinutes in
                let phaseDetails :=
                  getPhasePreviewFromMinutes (normalizedSeconds / 60) in
                JS.Normal (Some {| clock := clock; phaseDetails := phaseDetails |})
          | _, _ => JS.Normal None
          end
    end.

(** [target] is the time value of the [Date] passed, [target.getTime()]. *)
Definition deriveMinecraftClockAtDate
    (row : option SpawnTimerRow) (target : Z)
  : JS.completion (option MinecraftPhaseDetails) :=
  if negb (JS.truthy (JS.optional row ingame_time))
     || negb (JS.truthy (JS.optional row ingame_time_saved_at))
  then JS.Normal None
  else
    row_ingame_time_saved_at <- JS.member row ingame_time_saved_at ;;
    match JS.Date_getTime Date_parse row_ingame_time_saved_at with
    | None => JS.Normal None
    | Some savedAtMs =>
        row_ingame_time <- JS.member row ingame_time ;;
        parts <- JS.member row_ingame_time (JS.split ":") ;;
        let hoursPart := JS.element parts 0 in
        let minutesPart := JS.element parts 1 in
        if negb (JS.truthy hoursPart) || negb (JS.truthy minutesPart)
        then JS.Normal None
        else
          match JS.parseInt (JS.ToString hoursPart),
                JS.parseInt (JS.ToString minutesPart) with
          | Some hours, Some minutes =>
              if (hours <? 0) || (hours >? 23)
                 || (minutes <? 0) || (minutes >? 59)
              then JS.Normal None
              else
                let baseMinutes := inject_Z (hours * 60 + minutes) in
                let elapsedRealSeconds :=
                  JS.max 0 (inject_Z (target - savedAtMs) / 1000) in
                let elapsedMinecraftMinutes :=
                  (elapsedRealSeconds * (60 / MINECRAFT_HOUR_SECONDS))%Q in
                let totalMinutes := (baseMinutes + elapsedMinecraftMinutes)%Q in
                JS.Normal (Some (getMinecraftPhaseFromMinutes totalMinutes))
          | _, _ => JS.Normal None
          end
    end.

End ClockEngine.

(** ** A date parser: the UTC date-times of the ECMAScript format

    [YYYY-MM-DDTHH:mm:ss.sssZ], the format of ECMA-262 that every runtime
    parses alike and that [toISOString] writes (the page saves
    [ingame_time_saved_at] with it); seconds and milliseconds are optional.
    Any other string is not a date for this parser. *)

Module IsoDate.

(** The value of exactly [n] decimal digits at the head of [s], and the rest. *)
Fixpoint digits (n : nat) (acc : Z) (s : string) : option (Z * string) :=
  match n with
  | O => Some (acc, s)
  | S n' =>
      match s with
      | String c rest =>
          match JS.digit_value c with
          | Some d => digits n' (10 * acc + d) rest
          | None => None
          end
      | EmptyString => None
      end
  end.

Definition expect (c : ascii) (s : string) : option string :=
  match s with
  | String c' rest => if Ascii.eqb c c' then Some rest else None
  | EmptyString => None
  end.

Definition DayFromYear (y : Z) : Z :=
  365 * (y - 1970) + (y - 1969) / 4 - (y - 1901) / 100 + (y - 1601) / 400.

Definition InLeapYear (y : Z) : bool :=
  ((y mod 4 =? 0) && negb (y mod 100 =? 0)) || (y mod 400 =? 0).

Definition DaysInMonth (y m : Z) : Z :=
  if m =? 2 then (if InLeapYear y then 29 else 28)
  else if (m =? 4) || (m =? 6) || (m =? 9) || (m =? 11) then 30
  else 31.

(** The number of days of the year [y] before its month [m] (1 to 12). *)
Definition DaysBeforeMonth (y m : Z) : Z :=
  fold_left (fun acc k => acc + DaysInMonth y (Z.of_nat k))
            (seq 1 (Z.to_nat (m - 1))) 0.

Definition MakeDay (y m d : Z) : Z := DayFromYear y + DaysBeforeMonth y m + (d - 1).

Definition MakeTime (h mi s ms : Z) : Z := ((h * 60 + mi) * 60 + s) * 1000 + ms.

Definition MakeDate (day time : Z) : Z := day * 86400000 + time.

Definition parse (str : string) : option Z :=
  match digits 4 0 str with
  | Some (y, s1) =>
    match expect "-" s1 with
    | Some s2 =>
      match digits 2 0 s2 with
      | Some (m, s3) =>
        match expect "-" s3 with
        | Some s4 =>
          match digits 2 0 s4 with
          | Some (d, s5) =>
            match expect "T" s5 with
            | Some s6 =>
              match digits 2 0 s6 with
              | Some (h, s7) =>
                match expect ":" s7 with
                | Some s8 =>
                  match digits 2 0 s8 with
                  | Some (mi, s9) =>
                      let '(sec, s10) :=
                        match expect ":" s9 with
                        | Some s9' =>
                            match digits 2 0 s9' with
                            | Some r => r
                            | None => (-1, s9)
                            end
                        | None => (0, s9)
                        end in
                      let '(ms, s11) :=
                        match expect "." s10 with
                        | Some s10' =>
                            match digits 3 0 s10' with
                            | Some r => r
                            | None => (-1, s10)
                            end
                        | None => (0, s10)
                        end in
                      match s11 with
                      | "Z" =>
                          if (1 <=? m) && (m <=? 12)
                             && (1 <=? d) && (d <=? DaysInMonth y m)
                             && (0 <=? sec) && (sec <=? 59) && (0 <=? ms)
                             && (mi <=? 59)
                             && ((h <=? 23)
                                 || (h =? 24) && (mi =? 0) && (sec =? 0) && (ms =? 0))
                          then Some (MakeDate (MakeDay y m d) (MakeTime h mi sec ms))
                          else None
                      | _ => None
                      end
                  | None => None
                  end
                | None => None
                end
              | None => None
              end
            | None => None
            end
          | None => None
          end
        | None => None
        end
      | None => None
      end
    | None => None
    end
  | None => None
  end.

End IsoDate.

(** ** Notions the properties are stated with *)

(** The mathematical modulo: [x] minus the whole multiples of [y] below it. *)
Definition true_mod (x y : Q) : Q := (x - y * inject_Z (Qfloor (x / y)))%Q.

(** A number below 100 written with exactly two decimal digits. *)
Definition digit (d : Z) : ascii := ascii_of_nat (48 + Z.to_nat d).

Definition two_digits (n : Z) : string :=
  String (digit (n / 10)) (String (digit (n mod 10)) EmptyString).

(** The clock string [HH:MM] of an hour and a minute. *)
Definition hhmm (hours minutes : Z) : string :=
  two_digits hours ++ ":" ++ two_digits minutes.

(** The French phase names of the page against the names of the
    specification. *)
Definition Dawn : string := Aube.
Definition Day : string := Jour.
Definition Dusk : string := Crepuscule.
Definition Night : string := Nuit.

(** The whole numbers a double holds without rounding
    ([Number.isSafeInteger]). *)
Definition isSafeInteger (n : Z) : Prop := Z.abs n <= 2 ^ 53 - 1.

(** The time values of dates: at most 8.64e15 milliseconds from the epoch
    ([TimeClip]); every parsed timestamp is one. *)
Definition timeValue (t : Z) : Prop :=
  -8640000000000000 <= t <= 8640000000000000.

(** The horizon of the derivations: 10^12 milliseconds, a little under 32
    years.  A total of simulated time is a whole multiple of 1/125 second
    (9/125 second for each millisecond elapsed); up to the horizon the
    doubles of the page are within 2^-14 second of it, so the minute that
    is read is the minute of the exact total. *)
Definition horizonMs : Z := 1000000000000.

(** [instant] is at most the horizon after [savedAtMs], a time value. *)
Definition withinHorizon (savedAtMs instant : Z) : Prop :=
  timeValue savedAtMs /\ instant - savedAtMs <= horizonMs.

(** A row with the given time of day and timestamp. *)
Definition referenceRow (time savedAt : string) : SpawnTimerRow :=
  {| id := None; text := None; next_spawn := None;
     ingame_time := Some time; ingame_time_saved_at := Some savedAt |}.

(** What the live clock computes once the reference is validated: the
    total of simulated seconds, and the clock and phase read from it. *)
Definition liveTotalSeconds (savedAtMs hours minutes nowMs : Z) : Q :=
  (inject_Z ((hours * 60 + minutes) * 60)
   + JS.max 0 (inject_Z (nowMs - savedAtMs) / 1000)
     * MINECRAFT_SECONDS_PER_REAL_SECOND)%Q.

Definition liveClockOfSeconds (totalSeconds : Q) : LiveClock :=
  let normalizedSeconds := normalizeMinecraftSeconds totalSeconds in
  {| clock :=
       formatTwoDigits (Z.rem (JS.floor (normalizedSeconds / 3600)) 24) ++ ":" ++
       formatTwoDigits (JS.floor (JS.rem normalizedSeconds 3600 / 60));
     phaseDetails := getPhasePreviewFromMinutes (normalizedSeconds / 60) |}.

(** The total of simulated minutes of [deriveMinecraftClockAtDate]. *)
Definition targetTotalMinutes (savedAtMs hours minutes target : Z) : Q :=
  (inject_Z (hours * 60 + minutes)
   + JS.max 0 (inject_Z (target - savedAtMs) / 1000)
     * (60 / MINECRAFT_HOUR_SECONDS))%Q.

(** [map] on the outcome of a call. *)
Definition completion_map {A B : Type} (f : A -> B) (c : JS.completion A)
  : JS.completion B :=
  match c with
  | JS.Normal a => JS.Normal (f a)
  | JS.TypeError => JS.TypeError
  end.

Section Reference.

Variable Date_parse : string -> option Z.

(** [observed row savedAtMs hours minutes]: the row carries a valid
    reference, the time of day [hours:minutes] (the first two segments of
    [ingame_time], in range) observed at the instant [savedAtMs] (the parsed
    [ingame_time_saved_at]). *)
Definition observed (row : option SpawnTimerRow) (savedAtMs hours minutes : Z)
  : Prop :=
  exists r time savedAt hoursPart minutesPart others,
    row = Some r /\
    ingame_time r = Some time /\
    JS.split ":" time = hoursPart :: minutesPart :: others /\
    JS.parseInt hoursPart = Some hours /\ 0 <= hours <= 23 /\
    JS.parseInt minutesPart = Some minutes /\ 0 <= minutes <= 59 /\
    ingame_time_saved_at r = Some savedAt /\ savedAt <> "" /\
    Date_parse savedAt = Some savedAtMs.

(** The references the specification calls indeterminate: no row, no time
    of day or no timestamp, an hour of 24, a minute of 60, a timestamp that
    is not a date. *)
Inductive indeterminate (row : option SpawnTimerRow) : Prop :=
| absent_row : row = None -> indeterminate row
| missing_time r :
    row = Some r -> ingame_time r = None -> indeterminate row
| missing_timestamp r :
    row = Some r -> ingame_time_saved_at r = None -> indeterminate row
| hour_24 r time hoursPart others :
    row = Some r -> ingame_time r = Some time ->
    JS.split ":" time = hoursPart :: others ->
    JS.parseInt hoursPart = Some 24 -> indeterminate row
| minute_60 r time hoursPart minutesPart others :
    row = Some r -> ingame_time r = Some time ->
    JS.split ":" time = hoursPart :: minutesPart :: others ->
    JS.parseInt minutesPart = Some 60 -> indeterminate row
| unparseable_timestamp r savedAt :
    row = Some r -> ingame_time_saved_at r = Some savedAt ->
    Date_parse savedAt = None -> indeterminate row.

(** The validation that [deriveLiveMinecraftClock] and
    [deriveMinecraftClockAtDate] both start with, line for line, followed by
    a computation [k] on the saved instant, the hours and the minutes. *)
Definition withReference {A : Type} (row : option SpawnTimerRow)
    (k : Z -> Z -> Z -> A) : JS.completion (option A) :=
  if negb (JS.truthy (JS.optional row ingame_time))
     || negb (JS.truthy (JS.optional row ingame_time_saved_at))
  then JS.Normal None
  else
    row_ingame_time_saved_at <- JS.member row ingame_time_saved_at ;;
    match JS.Date_getTime Date_parse row_ingame_time_saved_at with
    | None => JS.Normal None
    | Some savedAtMs =>
        row_ingame_time <- JS.member row ingame_time ;;
        parts <- JS.member row_ingame_time (JS.split ":") ;;
        let hoursPart := JS.element parts 0 in
        let minutesPart := JS.element parts 1 in
        if negb (JS.truthy hoursPart) || negb (JS.truthy minutesPart)
        then JS.Normal None
        else
          match JS.parseInt (JS.ToString hoursPart),
                JS.parseInt (JS.ToString minutesPart) with
          | Some hours, Some minutes =>
              if (hours <? 0) || (hours >? 23)
                 || (minutes <? 0) || (minutes >? 59)
              then JS.Normal None
              else JS.Normal (Some (k savedAtMs hours minutes))
          | _, _ => JS.Normal None
          end
    end.

End Reference.

(** ** The rest of the page: formatting, preview, display and fetched rows *)

(** [Math.round]: the nearest integer, a half going up. *)
Definition Math_round (x : Q) : Z := Qfloor (x + (1 # 2)).

(** Whether a string is made of white space only; the fuel is its length. *)
Fixpoint all_space_fuel (fuel : nat) (s : string) : bool :=
  match s with
  | EmptyString => true
  | String _ _ =>
      match fuel with
      | O => false
      | S fuel' =>
          match JS.skip_space s with
          | Some rest => all_space_fuel fuel' rest
          | None => false
          end
      end
  end.

Definition all_space (s : string) : bool := all_space_fuel (String.length s) s.

(** [trimEnd] and [s.trim()]: the white space of [parseInt] is the white
    space that [trim] removes. *)
Fixpoint trimEnd (s : string) : string :=
  match s with
  | EmptyString => EmptyString
  | String c rest => if all_space s then EmptyString else String c (trimEnd rest)
  end.

Definition String_trim (s : string) : string := trimEnd (JS.trimStart s).

(** A plain object or a [Map] keyed by strings, read by key only: the
    entries, the latest first.  Writing a key hides its earlier entry. *)
Definition Obj (V : Type) : Type := list (string * V).

Fixpoint Obj_get {V : Type} (obj : Obj V) (key : string) : option V :=
  match obj with
  | [] => None
  | (k, v) :: rest => if String.eqb k key then Some v else Obj_get rest key
  end.

Definition Obj_set {V : Type} (obj : Obj V) (key : string) (value : V) : Obj V :=
  (key, value) :: obj.

Module Resource.
Record t := { id : string; label : string; icon : string }.
End Resource.

Definition RESOURCES : list Resource.t :=
  [ {| Resource.id := "ressources-01"; Resource.label := "Ressources-01";
       Resource.icon := "/pokeball.svg" |};
    {| Resource.id := "ressources-02"; Resource.label := "Ressources-02";
       Resource.icon := "/pokeball.svg" |};
    {| Resource.id := "construction-01"; Resource.label := "Construction-01";
       Resource.icon := "/icon.svg" |};
    {| Resource.id := "construction-02"; Resource.label := "Construction-02";
       Resource.icon := "/icon.svg" |} ].

Definition PHASE_ICON_MAP : Obj string :=
  [ ("Jour", "/phase-day.svg");
    ("Nuit", "/phase-night.svg");
    ("Aube", "/phase-dawn.svg");
    ("Crépuscule", "/phase-dusk.svg") ].

(** The callback [getPhasePreviewFromInGameTime].  Its argument is a string,
    so nothing in it can throw. *)
Definition getPhasePreviewFromInGameTime (value : string)
  : option MinecraftPhaseDetails :=
  if negb (JS.truthy (Some value)) then None
  else
    let parts := JS.split ":" value in
    let hoursPart := JS.element parts 0 in
    let minutesPart := JS.element parts 1 in
    if negb (JS.truthy hoursPart) || negb (JS.truthy minutesPart) then None
    else
      match JS.parseInt (JS.ToString hoursPart),
            JS.parseInt (JS.ToString minutesPart) with
      | Some hours, Some minutes =>
          if (hours <? 0) || (hours >? 23) || (minutes <? 0) || (minutes >? 59)
          then None
          else
            let totalMinutes := inject_Z (hours * 60 + minutes) in
            Some (getPhasePreviewFromMinutes totalMinutes)
      | _, _ => None
      end.

(** The part of [fetchTimers] between the answer of the store and the
    state: [byText] indexes the fetched rows by their text, [normalized]
    keeps for each resource the row of its label, and the inputs of the
    in-game time are filled from it. *)
Definition byTextOf (fetched : list SpawnTimerRow) : Obj SpawnTimerRow :=
  fold_left
    (fun byText row =>
       match text row with
       | Some row_text =>
           if JS.truthy (Some row_text) then Obj_set byText row_text row
           else byText
       | None => byText
       end)
    fetched [].

Definition normalizedOf (fetched : list SpawnTimerRow) : Obj SpawnTimerRow :=
  let byText := byTextOf fetched in
  fold_left
    (fun normalized resource =>
       match Obj_get byText (Resource.label resource) with
       | Some match_ => Obj_set normalized (Resource.id resource) match_
       | None => normalized
       end)
    RESOURCES [].

Definition inGameTimeInputsOf (normalized : Obj SpawnTimerRow) : Obj string :=
  fold_left
    (fun acc resource =>
       let row := Obj_get normalized (Resource.id resource) in
       Obj_set acc (Resource.id resource)
         (match JS.optional row ingame_time with
          | Some time => time
          | None => ""
          end))
    RESOURCES [].

(** The last of the fetched rows whose text is [key]. *)
Definition has_text (key : string) (row : SpawnTimerRow) : bool :=
  match text row with
  | Some row_text => JS.truthy (Some row_text) && String.eqb row_text key
  | None => false
  end.

Definition lastWithText (fetched : list SpawnTimerRow) (key : string)
  : option SpawnTimerRow :=
  find (has_text key) (rev fetched).

Section Display.

Variable Date_parse : string -> option Z.

(** [new Date()], the current instant, and [timeFormatter.format], the
    localised hour and minute of a date, which the locale data of the
    runtime decides. *)
Variable nowMs : Z.
Variable timeFormatter_format : Z -> string.

Definition getDisplayValue (row : option SpawnTimerRow) : JS.completion string :=
  if negb (JS.truthy (JS.optional row next_spawn))
  then JS.Normal "À redéfinir"
  else
    row_next_spawn <- JS.member row next_spawn ;;
    match JS.Date_getTime Date_parse row_next_spawn with
    | None => JS.Normal "À redéfinir"
    | Some dateMs =>
        let diffMs := dateMs - nowMs in
        let diffMinutes := Math_round (inject_Z diffMs / 60000) in
        if diffMinutes <=? 0 then JS.Normal "À redéfinir"
        else if diffMinutes <=? 120 then
          JS.Normal (if diffMinutes =? 1 then "Dans 1 minute"
                     else "Dans " ++ JS.toString diffMinutes ++ " minutes")
        else JS.Normal (timeFormatter_format dateMs)
    end.

End Display.

(** ** Saving a typed time of day

    [handleSaveInGameTime] up to its request to the store: the error it
    shows, or the fields it writes for the row of the resource (by an
    update, and by an insert of the same fields when no row is updated).
    [nowIso] is [new Date().toISOString()]. *)

Inductive SaveRequest : Type :=
| ShowError (message : string)
| WriteRow (row_text ingame_time ingame_time_saved_at : string).

Definition handleSaveInGameTime_request
    (inGameTimeInputs : Obj string) (nowIso : string) (id : string)
  : SaveRequest :=
  match find (fun item => String.eqb (Resource.id item) id) RESOURCES with
  | None => ShowError "Ressource inconnue."
  | Some resource =>
      let value :=
        String_trim (match Obj_get inGameTimeInputs id with
                     | Some input => input
                     | None => ""
                     end) in
      if negb (JS.truthy (Some value))
      then ShowError "Veuillez saisir une heure Minecraft au format HH:MM."
      else
        let parts := JS.split ":" value in
        let hoursPart := JS.element parts 0 in
        let minutesPart := JS.element parts 1 in
        if negb (JS.truthy hoursPart) || negb (JS.truthy minutesPart)
        then ShowError "Format de temps Minecraft invalide. Utilisez HH:MM."
        else
          match JS.parseInt (JS.ToString hoursPart),
                JS.parseInt (JS.ToString minutesPart) with
          | Some hours, Some minutes =>
              if (hours <? 0) || (hours >? 23)
                 || (minutes <? 0) || (minutes >? 59)
              then ShowError "Format de temps Minecraft invalide. Utilisez HH:MM."
              else WriteRow (Resource.label resource) value nowIso
          | _, _ =>
              ShowError "Format de temps Minecraft invalide. Utilisez HH:MM."
          end
  end.

(** The value that the handler validates: the trimmed input of the
    resource. *)
Definition inputOf (inGameTimeInputs : Obj string) (id : string) : string :=
  String_trim (match Obj_get inGameTimeInputs id with
               | Some input => input
               | None => ""
               end).

(** ** The client of the store (src/lib/supabaseClient)

    The module keeps one client in [browserClient]; a call returns it, or
    creates it from the two variables of the environment, or throws when
    one of them is missing or empty.  The state is passed explicitly. *)

Section SupabaseClient.

Variable SupabaseClient : Type.

(** [createClient(url, key, { auth: { persistSession } })] of the library. *)
Variable createClient : string -> string -> bool -> SupabaseClient.

Record Env := {
  NEXT_PUBLIC_SUPABASE_URL : option string;
  NEXT_PUBLIC_SUPABASE_ANON_KEY : option string
}.

Inductive Outcome : Type :=
| Returned (client : SupabaseClient)
| ThrownError (message : string).

Definition getSupabaseBrowserClient (env : Env)
    (browserClient : option SupabaseClient)
  : Outcome * option SupabaseClient :=
  match browserClient with
  | Some client => (Returned client, browserClient)
  | None =>
      let supabaseUrl := NEXT_PUBLIC_SUPABASE_URL env in
      let supabaseAnonKey := NEXT_PUBLIC_SUPABASE_ANON_KEY env in
      if negb (JS.truthy supabaseUrl) || negb (JS.truthy supabaseAnonKey)
      then
        (ThrownError
           "Les variables d'environnement NEXT_PUBLIC_SUPABASE_URL et NEXT_PUBLIC_SUPABASE_ANON_KEY sont requises.",
         browserClient)
      else
        let client :=
          createClient (JS.ToString supabaseUrl) (JS.ToString supabaseAnonKey)
                       false in
        (Returned client, Some client)
  end.

(** Calls in a row, each in its environment: the outcomes, and the state
    left. *)
Fixpoint calls (envs : list Env) (browserClient : option SupabaseClient)
  : list Outcome * option SupabaseClient :=
  match envs with
  | [] => ([], browserClient)
  | env :: rest =>
      let '(outcome, browserClient') := getSupabaseBrowserClient env browserClient in
      let '(outcomes, final) := calls rest browserClient' in
      (outcome :: outcomes, final)
  end.

End SupabaseClient.

(** ** Numbers that may be [NaN]

    The time value of an invalid [Date] is [NaN], and
    [updateMinecraftData] passes [new Date(row.next_spawn)] unchecked to
    [deriveMinecraftClockAtDate].  Here the functions on that path are read
    again with [NaN] among the numbers: a [number] is [None] for [NaN] and
    [Some] of a rational otherwise, and every operation that meets [NaN]
    gives [NaN], a comparison [false]. *)

Module WithNaN.

Definition number : Type := option Q.

Definition lift2 (f : Q -> Q -> Q) (x y : number) : number :=
  match x, y with
  | Some a, Some b => Some (f a b)
  | _, _ => None
  end.

Definition add := lift2 Qplus.
Definition sub := lift2 Qminus.
Definition mul := lift2 Qmult.
Definition div := lift2 Qdiv.
Definition rem := lift2 JS.rem.
Definition max := lift2 JS.max.

Definition floor (x : number) : option Z := option_map JS.floor x.

Definition ge (x y : number) : bool :=
  match x, y with
  | Some a, Some b => JS.ge a b
  | _, _ => false
  end.

Definition lt (x y : number) : bool :=
  match x, y with
  | Some a, Some b => JS.lt a b
  | _, _ => false
  end.

(** An integer-valued number or [NaN], as [floor] gives and [toString]
    takes. *)
Definition toString (value : option Z) : string :=
  match value with
  | Some n => JS.toString n
  | None => "NaN"
  end.

Definition of_Z (n : option Z) : number := option_map inject_Z n.

Definition formatTwoDigits (value : option Z) : string :=
  JS.padStart 2 "0" (toString value).

Definition getMinecraftPhaseFromMinutes (minutes : number) : MinecraftPhaseDetails :=
  let normalizedMinutes :=
    rem (add (rem minutes (Some MINECRAFT_MINUTES_PER_DAY))
             (Some MINECRAFT_MINUTES_PER_DAY))
        (Some MINECRAFT_MINUTES_PER_DAY) in
  let timeLabel :=
    formatTwoDigits (floor (div normalizedMinutes (Some 60%Q))) ++ ":" ++
    formatTwoDigits (floor (rem normalizedMinutes (Some 60%Q))) in
  if ge normalizedMinutes (Some 273%Q) && lt normalizedMinutes (Some 387%Q) then
    {| phase := Aube; timeLabel := Some timeLabel |}
  else if ge normalizedMinutes (Some 387%Q) && lt normalizedMinutes (Some 1057%Q) then
    {| phase := Jour; timeLabel := Some timeLabel |}
  else if ge normalizedMinutes (Some 1057%Q) && lt normalizedMinutes (Some 1188%Q) then
    {| phase := Crepuscule; timeLabel := Some timeLabel |}
  else
    {| phase := Nuit; timeLabel := Some timeLabel |}.

Section Derivation.

Variable Date_parse : string -> option Z.

(** [target] is [target.getTime()], [NaN] for an invalid date. *)
Definition deriveMinecraftClockAtDate
    (row : option SpawnTimerRow) (target : option Z)
  : JS.completion (option MinecraftPhaseDetails) :=
  if negb (JS.truthy (JS.optional row ingame_time))
     || negb (JS.truthy (JS.optional row ingame_time_saved_at))
  then JS.Normal None
  else
    row_ingame_time_saved_at <- JS.member row ingame_time_saved_at ;;
    match JS.Date_getTime Date_parse row_ingame_time_saved_at with
    | None => JS.Normal None
    | Some savedAtMs =>
        row_ingame_time <- JS.member row ingame_time ;;
        parts <- JS.member row_ingame_time (JS.split ":") ;;
        let hoursPart := JS.element parts 0 in
        let minutesPart := JS.element parts 1 in
        if negb (JS.truthy hoursPart) || negb (JS.truthy minutesPart)
        then JS.Normal None
        else
          match JS.parseInt (JS.ToString hoursPart),
                JS.parseInt (JS.ToString minutesPart) with
          | Some hours, Some minutes =>
              if (hours <? 0) || (hours >? 23)
                 || (minutes <? 0) || (minutes >? 59)
              then JS.Normal None
              else
                let baseMinutes := Some (inject_Z (hours * 60 + minutes)) in
                let elapsedRealSeconds :=
                  max (Some 0%Q)
                      (div (sub (of_Z target) (Some (inject_Z savedAtMs)))
                           (Some 1000%Q)) in
                let elapsedMinecraftMinutes :=
                  mul elapsedRealSeconds (Some (60 / MINECRAFT_HOUR_SECONDS)%Q) in
                let totalMinutes := add baseMinutes elapsedMinecraftMinutes in
                JS.Normal (Some (getMinecraftPhaseFromMinutes totalMinutes))
          | _, _ => JS.Normal None
          end
    end.

(** The prediction that [updateMinecraftData] stores for a row. *)
Definition predictedAtSpawn (row : option SpawnTimerRow)
  : JS.completion (option MinecraftPhaseDetails) :=
  if JS.truthy (JS.optional row next_spawn)
  then
    row_next_spawn <- JS.member row next_spawn ;;
    deriveMinecraftClockAtDate row (JS.Date_getTime Date_parse row_next_spawn)
  else JS.Normal None.

End Derivation.

End WithNaN.

(** ** The same functions over binary64

    The clock functions once more, their arithmetic done as the runtime does
    it: a [number] is an IEEE-754 double, every operation rounds to the
    nearest double (ties to even), and [NaN], the infinities and [-0] are
    values.  The validation of the row is the one above, word for word. *)

Module F64.

Definition number : Set := PrimFloat.float.

(** The double nearest to [m * 2^e]. *)
Definition dyadic (m e : Z) : number :=
  FloatOps.SF2Prim (SpecFloat.binary_normalize FloatOps.prec FloatOps.emax m e false).

(** The double nearest to an integer: the integer itself below 2^53. *)
Definition of_Z (z : Z) : number := dyadic z 0.

(** The rational a finite double is, in lowest terms. *)
Definition to_Q (x : number) : option Q :=
  match FloatOps.Prim2SF x with
  | SpecFloat.S754_zero _ => Some 0%Q
  | SpecFloat.S754_finite s m e =>
      let n := if s then Zneg m else Zpos m in
      Some (match e with
            | Zneg k => Qred (Qmake n (2 ^ k))
            | _ => inject_Z (n * 2 ^ e)
            end)
  | _ => None
  end.

Definition add : number -> number -> number := PrimFloat.add.
Definition sub : number -> number -> number := PrimFloat.sub.
Definition mul : number -> number -> number := PrimFloat.mul.
Definition div : number -> number -> number := PrimFloat.div.

(** The remainder operator [%]: the result has the sign of the dividend and
    is exact (no rounding takes place); [NaN] for an infinite dividend or a
    zero divisor, the dividend itself for an infinite divisor.  Both
    operands are brought to the smaller of their exponents, where they are
    integers. *)
Definition rem (n d : number) : number :=
  match FloatOps.Prim2SF n, FloatOps.Prim2SF d with
  | SpecFloat.S754_finite sn mn en, SpecFloat.S754_finite _ md ed =>
      let e := Z.min en ed in
      let r := Z.rem (Z.shiftl (Zpos mn) (en - e)) (Z.shiftl (Zpos md) (ed - e)) in
      FloatOps.SF2Prim
        (SpecFloat.binary_normalize FloatOps.prec FloatOps.emax
           (if sn then - r else r) e sn)
  | SpecFloat.S754_zero _, SpecFloat.S754_finite _ _ _ => n
  | SpecFloat.S754_zero _, SpecFloat.S754_infinity _ => n
  | SpecFloat.S754_finite _ _ _, SpecFloat.S754_infinity _ => n
  | _, _ => PrimFloat.nan
  end.

(** [Math.max]: [NaN] when an argument is, and [+0] above [-0]. *)
Definition max (x y : number) : number :=
  if PrimFloat.is_nan x || PrimFloat.is_nan y then PrimFloat.nan
  else if PrimFloat.ltb x y then y
  else if PrimFloat.ltb y x then x
  else if PrimFloat.get_sign x then y else x.

Definition ge (x y : number) : bool := PrimFloat.leb y x.
Definition lt (x y : number) : bool := PrimFloat.ltb x y.

(** The numbers [Math.floor] returns: the integers, [-0], [NaN] and the
    infinities. *)
Inductive whole : Set :=
| Whole (n : Z)
| NegZero
| NotANumber
| Infinite (negative : bool).

(** [Math.floor]: the floor of [m * 2^e] is [m] shifted by [e] places, to
    the right when [e] is negative. *)
Definition floor (x : number) : whole :=
  match FloatOps.Prim2SF x with
  | SpecFloat.S754_nan => NotANumber
  | SpecFloat.S754_infinity s => Infinite s
  | SpecFloat.S754_zero s => if s then NegZero else Whole 0
  | SpecFloat.S754_finite s m e => Whole (Z.shiftl (if s then Zneg m else Zpos m) e)
  end.

Definition number_of (w : whole) : number :=
  match w with
  | Whole n => of_Z n
  | NegZero => PrimFloat.neg_zero
  | NotANumber => PrimFloat.nan
  | Infinite negative =>
      if negative then PrimFloat.neg_infinity else PrimFloat.infinity
  end.

(** [w % d] for a whole [w] and an integer [d], as in
    [Math.floor(x) % 24]: a whole number again. *)
Definition whole_rem (w : whole) (d : Z) : whole :=
  floor (rem (number_of w) (of_Z d)).

(** [value.toString()] on a whole number, in decimal digits: the notation
    of the integers below 10^21, which are those the clock functions
    print. *)
Definition toString (value : whole) : string :=
  match value with
  | Whole n => JS.toString n
  | NegZero => "0"
  | NotANumber => "NaN"
  | Infinite negative => if negative then "-Infinity" else "Infinity"
  end.

Definition MINECRAFT_CYCLE_SECONDS : number := of_Z 1200.
Definition MINECRAFT_HOUR_SECONDS : number := of_Z 50.
Definition MINECRAFT_MINUTES_PER_DAY : number := mul (of_Z 24) (of_Z 60).
Definition MINECRAFT_SECONDS_PER_REAL_SECOND : number :=
  div (mul (of_Z 60) (of_Z 60)) MINECRAFT_HOUR_SECONDS.
Definition MINECRAFT_SECONDS_PER_DAY : number :=
  mul MINECRAFT_MINUTES_PER_DAY (of_Z 60).

Definition formatTwoDigits (value : whole) : string :=
  JS.padStart 2 "0" (toString value).

Definition formatMinecraftClock (cycleSeconds : number) : string :=
  let totalMinecraftHours := div cycleSeconds MINECRAFT_HOUR_SECONDS in
  let minecraftHour := whole_rem (floor totalMinecraftHours) 24 in
  let minecraftMinute := floor (mul (rem totalMinecraftHours (of_Z 1)) (of_Z 60)) in
  formatTwoDigits minecraftHour ++ ":" ++ formatTwoDigits minecraftMinute.

Definition normalizedMinutes (minutes : number) : number :=
  rem (add (rem minutes MINECRAFT_MINUTES_PER_DAY) MINECRAFT_MINUTES_PER_DAY)
      MINECRAFT_MINUTES_PER_DAY.

Definition getMinecraftPhaseFromMinutes (minutes : number) : MinecraftPhaseDetails :=
  let normalizedMinutes := normalizedMinutes minutes in
  let timeLabel :=
    formatTwoDigits (floor (div normalizedMinutes (of_Z 60))) ++ ":" ++
    formatTwoDigits (floor (rem normalizedMinutes (of_Z 60))) in
  if ge normalizedMinutes (of_Z 273) && lt normalizedMinutes (of_Z 387) then
    {| phase := Aube; timeLabel := Some timeLabel |}
  else if ge normalizedMinutes (of_Z 387) && lt normalizedMinutes (of_Z 1057) then
    {| phase := Jour; timeLabel := Some timeLabel |}
  else if ge normalizedMinutes (of_Z 1057) && lt normalizedMinutes (of_Z 1188) then
    {| phase := Crepuscule; timeLabel := Some timeLabel |}
  else
    {| phase := Nuit; timeLabel := Some timeLabel |}.

Definition getPhasePreviewFromMinutes (totalMinutes : number) : MinecraftPhaseDetails :=
  getMinecraftPhaseFromMinutes totalMinutes.

Definition normalizeMinecraftSeconds (seconds : number) : number :=
  rem (add (rem seconds MINECRAFT_SECONDS_PER_DAY) MINECRAFT_SECONDS_PER_DAY)
      MINECRAFT_SECONDS_PER_DAY.

Section ClockEngine.

Variable Date_parse : string -> option Z.

Definition deriveLiveMinecraftClock
    (row : option SpawnTimerRow) (nowMs : Z)
  : JS.completion (option LiveClock) :=
  if negb (JS.truthy (JS.optional row ingame_time))
     || negb (JS.truthy (JS.optional row ingame_time_saved_at))
  then JS.Normal None
  else
    row_ingame_time_saved_at <- JS.member row ingame_time_saved_at ;;
    match JS.Date_getTime Date_parse row_ingame_time_saved_at with
    | None => JS.Normal None
    | Some savedAtMs =>
        row_ingame_time <- JS.member row ingame_time ;;
        parts <- JS.member row_ingame_time (JS.split ":") ;;
        let hoursPart := JS.element parts 0 in
        let minutesPart := JS.element parts 1 in
        if negb (JS.truthy hoursPart) || negb (JS.truthy minutesPart)
        then JS.Normal None
        else
          match JS.parseInt (JS.ToString hoursPart),
                JS.parseInt (JS.ToString minutesPart) with
          | Some hours, Some minutes =>
              if (hours <? 0) || (hours >? 23)
                 || (minutes <? 0) || (minutes >? 59)
              then JS.Normal None
              else
                let baseSeconds :=
                  mul (add (mul (of_Z hours) (of_Z 60)) (of_Z minutes)) (of_Z 60) in
                let elapsedRealSeconds :=
                  max (of_Z 0) (div (sub (of_Z nowMs) (of_Z savedAtMs)) (of_Z 1000)) in
                let elapsedMinecraftSeconds :=
                  mul elapsedRealSeconds MINECRAFT_SECONDS_PER_REAL_SECOND in
                let totalSeconds := add baseSeconds elapsedMinecraftSeconds in
                let normalizedSeconds := normalizeMinecraftSeconds totalSeconds in
                let currentHours :=
                  whole_rem (floor (div normalizedSeconds (of_Z 3600))) 24 in
                let currentMinutes :=
                  floor (div (rem normalizedSeconds (of_Z 3600)) (of_Z 60)) in
                let clock :=
                  formatTwoDigits currentHours ++ ":" ++
                  formatTwoDigits currentMinutes in
                let phaseDetails :=
                  getPhasePreviewFromMinutes (div normalizedSeconds (of_Z 60)) in
                JS.Normal (Some {| clock := clock; phaseDetails := phaseDetails |})
          | _, _ => JS.Normal None
          end
    end.

Definition deriveMinecraftClockAtDate
    (row : option SpawnTimerRow) (target : Z)
  : JS.completion (option MinecraftPhaseDetails) :=
  if negb (JS.truthy (JS.optional row ingame_time))
     || negb (JS.truthy (JS.optional row ingame_time_saved_at))
  then JS.Normal None
  else
    row_ingame_time_saved_at <- JS.member row ingame_time_saved_at ;;
    match JS.Date_getTime Date_parse row_ingame_time_saved_at with
    | None => JS.Normal None
    | Some savedAtMs =>
        row_ingame_time <- JS.member row ingame_time ;;
        parts <- JS.member row_ingame_time (JS.split ":") ;;
        let hoursPart := JS.element parts 0 in
        let minutesPart := JS.element parts 1 in
        if negb (JS.truthy hoursPart) || negb (JS.truthy minutesPart)
        then JS.Normal None
        else
          match JS.parseInt (JS.ToString hoursPart),
                JS.parseInt (JS.ToString minutesPart) with
          | Some hours, Some minutes =>
              if (hours <? 0) || (hours >? 23)
                 || (minutes <? 0) || (minutes >? 59)
              then JS.Normal None
              else
                let baseMinutes := add (mul (of_Z hours) (of_Z 60)) (of_Z minutes) in
                let elapsedRealSeconds :=
                  max (of_Z 0) (div (sub (of_Z target) (of_Z savedAtMs)) (of_Z 1000)) in
                let elapsedMinecraftMinutes :=
                  mul elapsedRealSeconds (div (of_Z 60) MINECRAFT_HOUR_SECONDS) in
                let totalMinutes := add baseMinutes elapsedMinecraftMinutes in
                JS.Normal (Some (getMinecraftPhaseFromMinutes totalMinutes))
          | _, _ => JS.Normal None
          end
    end.

End ClockEngine.

End F64.

(** ** References and delays for the comparison of the two readings

    Milliseconds between the observation and the query: before the
    observation, the 2.5 seconds that make three simulated minutes, 27
    seconds, and just before and at the horizon (which is a whole number of
    simulated minutes). *)
Definition sampledDelays : list Z :=
  [ -1; 2500; 27000; 999999999999; 1000000000000 ].

(** Reference times of day: the start, the 27th and the last minute of
    every hour. *)
Definition sampledTimes : list (Z * Z) :=
  flat_map (fun hours => [(hours, 0); (hours, 27); (hours, 59)])
           (map Z.of_nat (seq 0 24)).

(** ** Rows for the examples *)

(** A row with the given text, next spawn, time of day and timestamp. *)
Definition spawnRow (row_text spawn time savedAt : option string) : SpawnTimerRow :=
  {| id := None; text := row_text; next_spawn := spawn;
     ingame_time := time; ingame_time_saved_at := savedAt |}.

(** Three fetched rows: two of the first resource, one of no resource. *)
Definition fetchedRows : list SpawnTimerRow :=
  [ spawnRow (Some "Ressources-01") None (Some "06:30") None;
    spawnRow (Some "Ailleurs") None (Some "12:00") None;
    spawnRow (Some "Ressources-01") None (Some "07:45") None ].

(** ** Rational arithmetic: floor, truncation and the remainder *)

Section Arithmetic.

Local Open Scope Q_scope.

Lemma floor_unique (x : Q) (k : Z) :
  inject_Z k <= x -> x < inject_Z (k + 1) -> Qfloor x = k.
Proof.
  intros Hle Hlt.
  pose proof (Qfloor_le x) as H1. pose proof (Qlt_floor x) as H2.
  assert (inject_Z k < inject_Z (Qfloor x + 1)) as A by lra.
  assert (inject_Z (Qfloor x) < inject_Z (k + 1)) as B by lra.
  rewrite <- Zlt_Qlt in A, B. lia.
Qed.

Lemma floor_of_range (x y : Q) (k : Z) :
  0 < y -> inject_Z k * y <= x -> x < inject_Z (k + 1) * y -> Qfloor (x / y) = k.
Proof.
  intros Hy H1 H2. apply floor_unique.
  - apply Qle_shift_div_l; assumption.
  - apply Qlt_shift_div_r; assumption.
Qed.

Lemma floor_div_0 (x y : Q) : 0 <= x -> x < y -> Qfloor (x / y) = 0%Z.
Proof.
  intros H0 H1. apply floor_of_range; [lra | |];
    [change (inject_Z 0) with 0 | change (inject_Z (0 + 1)) with 1]; lra.
Qed.

Lemma floor_div_1 (x y : Q) :
  y <= x -> x < y + y -> 0 < y -> Qfloor (x / y) = 1%Z.
Proof.
  intros H0 H1 Hy. apply floor_of_range; [lra | |];
    [change (inject_Z 1) with 1 | change (inject_Z (1 + 1)) with 2]; lra.
Qed.

(** Truncation is the floor of a number that is not negative, and the floor
    or its successor otherwise. *)
Lemma trunc_floor (q : Q) : 0 <= q -> JS.trunc q = Qfloor q.
Proof.
  destruct q as [n d]. unfold JS.trunc, Qfloor, Qle. simpl. intros H.
  apply Z.quot_div_nonneg; lia.
Qed.

Lemma trunc_cases (q : Q) :
  JS.trunc q = Qfloor q \/ JS.trunc q = (Qfloor q + 1)%Z.
Proof.
  destruct (Qlt_le_dec q 0) as [H|H]; [|left; now apply trunc_floor].
  destruct q as [n d]. unfold JS.trunc, Qfloor, Qlt in *. simpl in *.
  assert (n < 0)%Z as Hn by lia.
  pose proof (Z.quot_rem' n (Zpos d)) as E.
  pose proof (Z.rem_bound_pos_neg n (Zpos d)) as B.
  pose proof (Z.div_mod n (Zpos d)) as E'.
  pose proof (Z.mod_pos_bound n (Zpos d)) as B'.
  assert (- Zpos d < Z.rem n (Zpos d) <= 0)%Z as B1 by (apply B; lia).
  assert (0 <= n mod Zpos d < Zpos d)%Z as B2 by (apply B'; lia).
  assert (n = Zpos d * (n / Zpos d) + n mod Zpos d)%Z as E2 by (apply E'; lia).
  nia.
Qed.

Lemma mul_div (x y : Q) : 0 < y -> y * (x / y) == x.
Proof. intros Hy. field. lra. Qed.

Lemma true_mod_bound (x y : Q) : 0 < y -> 0 <= true_mod x y /\ true_mod x y < y.
Proof.
  intros Hy. unfold true_mod.
  pose proof (Qfloor_le (x / y)) as H1. pose proof (Qlt_floor (x / y)) as H2.
  rewrite inject_Z_plus in H2. change (inject_Z 1) with 1 in H2.
  pose proof (mul_div x y Hy) as E.
  set (t := x / y) in *. set (f := inject_Z (Qfloor t)) in *.
  assert (x - y * f == y * (t - f)) as -> by (rewrite <- E; ring).
  split.
  - apply Qmult_le_0_compat; lra.
  - assert (y * (t - f) < y * 1) by (apply Qmult_lt_l; lra). lra.
Qed.

Lemma true_mod_small (x y : Q) : 0 <= x -> x < y -> true_mod x y == x.
Proof.
  intros H0 H1. unfold true_mod. rewrite floor_div_0 by assumption.
  change (inject_Z 0) with 0. ring.
Qed.

#[global] Instance true_mod_comp : Proper (Qeq ==> Qeq ==> Qeq) true_mod.
Proof.
  intros x x' Hx y y' Hy. unfold true_mod.
  assert (Qfloor (x / y) = Qfloor (x' / y')) as ->
    by (apply Qfloor_comp; rewrite Hx, Hy; reflexivity).
  rewrite Hx, Hy. reflexivity.
Qed.

(** On a dividend that is not negative the remainder is the modulo. *)
Lemma rem_nonneg (x y : Q) : 0 <= x -> 0 < y -> JS.rem x y == true_mod x y.
Proof.
  intros H0 Hy. unfold JS.rem, true_mod.
  rewrite trunc_floor by (apply Qle_shift_div_l; lra). reflexivity.
Qed.

Lemma rem_small (x y : Q) : 0 <= x -> x < y -> JS.rem x y == x.
Proof.
  intros H0 H1. rewrite rem_nonneg by lra. now apply true_mod_small.
Qed.

(** The idiom [((x % y) + y) % y] is the modulo, whatever the sign of [x]. *)
Lemma normalize_true_mod (x y : Q) :
  0 < y -> JS.rem (JS.rem x y + y) y == true_mod x y.
Proof.
  intros Hy. destruct (true_mod_bound x y Hy) as [B0 B1].
  assert (JS.rem x y == true_mod x y \/ JS.rem x y == true_mod x y - y) as [E|E].
  { unfold JS.rem, true_mod. destruct (trunc_cases (x / y)) as [->| ->].
    - left. reflexivity.
    - right. rewrite inject_Z_plus. change (inject_Z 1) with 1. ring. }
  - unfold JS.rem at 1.
    assert (0 <= JS.rem x y + y) by lra.
    rewrite trunc_floor by (apply Qle_shift_div_l; lra).
    rewrite (floor_div_1 (JS.rem x y + y) y) by lra.
    change (inject_Z 1) with 1. rewrite E. ring.
  - unfold JS.rem at 1.
    assert (0 <= JS.rem x y + y) by lra.
    rewrite trunc_floor by (apply Qle_shift_div_l; lra).
    rewrite (floor_div_0 (JS.rem x y + y) y) by lra.
    change (inject_Z 0) with 0. rewrite E. ring.
Qed.

Lemma normalizedMinutes_true_mod (minutes : Q) :
  normalizedMinutes minutes == true_mod minutes 1440.
Proof.
  exact (normalize_true_mod minutes MINECRAFT_MINUTES_PER_DAY eq_refl).
Qed.

Lemma normalizeMinecraftSeconds_true_mod (seconds : Q) :
  normalizeMinecraftSeconds seconds == true_mod seconds 86400.
Proof.
  exact (normalize_true_mod seconds MINECRAFT_SECONDS_PER_DAY eq_refl).
Qed.

Lemma normalizedMinutes_bound (minutes : Q) :
  0 <= normalizedMinutes minutes /\ normalizedMinutes minutes < 1440.
Proof.
  rewrite normalizedMinutes_true_mod. apply true_mod_bound. reflexivity.
Qed.

Lemma normalizeMinecraftSeconds_bound (seconds : Q) :
  0 <= normalizeMinecraftSeconds seconds
  /\ normalizeMinecraftSeconds seconds < 86400.
Proof.
  rewrite normalizeMinecraftSeconds_true_mod. apply true_mod_bound. reflexivity.
Qed.

(** Normalising seconds and converting to minutes commute. *)
(** On integers the modulo is [Z.modulo]. *)
Lemma true_mod_inject_Z (n : Z) (d : positive) :
  true_mod (inject_Z n) (inject_Z (Zpos d)) == inject_Z (n mod Zpos d).
Proof.
  unfold true_mod. rewrite <- Zdiv_Qdiv.
  rewrite (Z.mod_eq n (Zpos d)) by discriminate. unfold Z.sub.
  rewrite inject_Z_plus, inject_Z_opp, inject_Z_mult. ring.
Qed.

Lemma normalizedMinutes_inject_Z (m : Z) :
  normalizedMinutes (inject_Z m) == inject_Z (m mod 1440).
Proof.
  rewrite normalizedMinutes_true_mod. exact (true_mod_inject_Z m 1440).
Qed.

Lemma normalizeMinecraftSeconds_inject_Z (seconds : Z) :
  normalizeMinecraftSeconds (inject_Z seconds) == inject_Z (seconds mod 86400).
Proof.
  rewrite normalizeMinecraftSeconds_true_mod. exact (true_mod_inject_Z seconds 86400).
Qed.

Lemma true_mod_minutes (seconds : Q) :
  true_mod (seconds / 60) 1440 == true_mod seconds 86400 / 60.
Proof.
  unfold true_mod.
  assert (seconds / 60 / 1440 == seconds / 86400) as -> by (field; lra).
  field.
Qed.

End Arithmetic.

(** ** The phase lookup *)

Section PhaseLookup.

Local Open Scope Q_scope.

(** The lookup depends on its argument through the normalised minute only. *)
Lemma getMinecraftPhaseFromMinutes_congr (a b : Q) :
  normalizedMinutes a == normalizedMinutes b ->
  getMinecraftPhaseFromMinutes a = getMinecraftPhaseFromMinutes b.
Proof.
  intros H. unfold getMinecraftPhaseFromMinutes. cbv zeta.
  destruct (normalizedMinutes_bound a) as [A0 _].
  destruct (normalizedMinutes_bound b) as [B0 _].
  generalize dependent (normalizedMinutes b).
  generalize dependent (normalizedMinutes a). intros na A0 nb H B0.
  unfold JS.floor.
  assert (Qfloor (na / 60) = Qfloor (nb / 60)) as ->
    by (apply Qfloor_comp; rewrite H; reflexivity).
  assert (Qfloor (JS.rem na 60) = Qfloor (JS.rem nb 60)) as ->
    by (apply Qfloor_comp; rewrite !rem_nonneg by lra; rewrite H; reflexivity).
  unfold JS.ge, JS.lt. rewrite !H. reflexivity.
Qed.

Lemma getMinecraftPhaseFromMinutes_normalized (minutes : Q) :
  getMinecraftPhaseFromMinutes (normalizedMinutes minutes)
  = getMinecraftPhaseFromMinutes minutes.
Proof.
  apply getMinecraftPhaseFromMinutes_congr.
  destruct (normalizedMinutes_bound minutes) as [H0 H1].
  rewrite (normalizedMinutes_true_mod (normalizedMinutes minutes)).
  apply true_mod_small; assumption.
Qed.

Lemma ge_spec (x y : Q) : JS.ge x y = true <-> y <= x.
Proof. unfold JS.ge. apply Qle_bool_iff. Qed.

Lemma lt_spec (x y : Q) : JS.lt x y = true <-> x < y.
Proof.
  unfold JS.lt. rewrite negb_true_iff, <- not_true_iff_false, Qle_bool_iff.
  split; [apply Qnot_le_lt | apply Qlt_not_le].
Qed.

Lemma between_spec (x lo hi : Q) :
  JS.ge x lo && JS.lt x hi = true <-> lo <= x /\ x < hi.
Proof. rewrite andb_true_iff, ge_spec, lt_spec. reflexivity. Qed.

(** The phase of a normalised minute, interval by interval. *)
Lemma phase_intervals (minutes : Q) :
  let n := normalizedMinutes minutes in
  let p := phase (getMinecraftPhaseFromMinutes minutes) in
  (273 <= n /\ n < 387 -> p = Aube) /\
  (387 <= n /\ n < 1057 -> p = Jour) /\
  (1057 <= n /\ n < 1188 -> p = Crepuscule) /\
  (n < 273 \/ 1188 <= n -> p = Nuit).
Proof.
  cbv zeta. unfold getMinecraftPhaseFromMinutes. cbv zeta.
  set (n := normalizedMinutes minutes).
  destruct (JS.ge n 273 && JS.lt n 387) eqn:E1;
    [apply between_spec in E1 | apply not_true_iff_false in E1;
                                rewrite between_spec in E1];
  (destruct (JS.ge n 387 && JS.lt n 1057) eqn:E2;
    [apply between_spec in E2 | apply not_true_iff_false in E2;
                                rewrite between_spec in E2]);
  (destruct (JS.ge n 1057 && JS.lt n 1188) eqn:E3;
    [apply between_spec in E3 | apply not_true_iff_false in E3;
                                rewrite between_spec in E3]);
  cbn [phase]; repeat split; intros; try reflexivity; exfalso; lra.
Qed.

End PhaseLookup.

(** ** The validation of the reference *)

Section Validation.

Variable Date_parse : string -> option Z.

Lemma deriveLiveMinecraftClock_withReference row nowMs :
  deriveLiveMinecraftClock Date_parse row nowMs
  = withReference Date_parse row
      (fun savedAtMs hours minutes =>
         liveClockOfSeconds (liveTotalSeconds savedAtMs hours minutes nowMs)).
Proof. reflexivity. Qed.

Lemma deriveMinecraftClockAtDate_withReference row target :
  deriveMinecraftClockAtDate Date_parse row target
  = withReference Date_parse row
      (fun savedAtMs hours minutes =>
         getMinecraftPhaseFromMinutes
           (targetTotalMinutes savedAtMs hours minutes target)).
Proof. reflexivity. Qed.

Lemma truthy_nonempty (s : string) : s <> "" -> JS.truthy (Some s) = true.
Proof. destruct s; [congruence | reflexivity]. Qed.

Lemma parseInt_nonempty (s : string) (v : Z) : JS.parseInt s = Some v -> s <> "".
Proof. intros H ->. discriminate H. Qed.

Lemma split_nonempty (time first second : string) (others : list string) :
  JS.split ":" time = first :: second :: others -> time <> "".
Proof. intros H ->. discriminate H. Qed.

Section Continuation.

Context {A : Type} (k : Z -> Z -> Z -> A).

(** On a valid reference the validation passes. *)
Lemma withReference_observed row savedAtMs hours minutes :
  observed Date_parse row savedAtMs hours minutes ->
  withReference Date_parse row k = JS.Normal (Some (k savedAtMs hours minutes)).
Proof.
  intros (r & time & savedAt & hoursPart & minutesPart & others & -> & Ht & Hs
          & Hh & Rh & Hm & Rm & Hsa & Hne & Hd).
  unfold withReference.
  cbn [JS.optional JS.member JS.bind]. rewrite Ht, Hsa.
  rewrite (truthy_nonempty time (split_nonempty _ _ _ _ Hs)).
  rewrite (truthy_nonempty savedAt Hne).
  cbn [negb orb JS.Date_getTime JS.member JS.bind]. rewrite Hd, Hs.
  cbn [JS.element nth_error].
  rewrite (truthy_nonempty hoursPart (parseInt_nonempty _ _ Hh)).
  rewrite (truthy_nonempty minutesPart (parseInt_nonempty _ _ Hm)).
  cbn [negb orb JS.ToString]. rewrite Hh, Hm.
  replace (hours <? 0) with false by (symmetry; apply Z.ltb_ge; lia).
  replace (hours >? 23) with false by (symmetry; rewrite Z.gtb_ltb; apply Z.ltb_ge; lia).
  replace (minutes <? 0) with false by (symmetry; apply Z.ltb_ge; lia).
  replace (minutes >? 59) with false by (symmetry; rewrite Z.gtb_ltb; apply Z.ltb_ge; lia).
  reflexivity.
Qed.

(** A result comes from a valid reference only. *)
Lemma withReference_inv row (a : A) :
  withReference Date_parse row k = JS.Normal (Some a) ->
  exists savedAtMs hours minutes,
    observed Date_parse row savedAtMs hours minutes
    /\ a = k savedAtMs hours minutes.
Proof.
  unfold withReference. destruct row as [r|]; [|discriminate].
  cbn [JS.optional JS.member JS.bind].
  destruct (ingame_time r) as [time|] eqn:Ht; [|discriminate].
  destruct (ingame_time_saved_at r) as [savedAt|] eqn:Hsa;
    [|destruct time; cbn; discriminate].
  destruct (JS.truthy (Some time)) eqn:Tt; [|discriminate].
  destruct (JS.truthy (Some savedAt)) eqn:Ts; [|discriminate].
  cbn [negb orb JS.Date_getTime JS.member JS.bind].
  destruct (Date_parse savedAt) as [savedAtMs|] eqn:Hd; [|discriminate].
  destruct (JS.split ":" time) as [|hoursPart [|minutesPart others]] eqn:Hs;
    cbn [JS.element nth_error];
    [cbn; discriminate | destruct hoursPart; cbn; discriminate |].
  destruct (JS.truthy (Some hoursPart)) eqn:Th; [|discriminate].
  destruct (JS.truthy (Some minutesPart)) eqn:Tm; [|discriminate].
  cbn [negb orb JS.ToString].
  destruct (JS.parseInt hoursPart) as [hours|] eqn:Hh; [|discriminate].
  destruct (JS.parseInt minutesPart) as [minutes|] eqn:Hm; [|discriminate].
  destruct (hours <? 0) eqn:R1; [discriminate|].
  destruct (hours >? 23) eqn:R2; [discriminate|].
  destruct (minutes <? 0) eqn:R3; [discriminate|].
  destruct (minutes >? 59) eqn:R4; [discriminate|].
  cbn [orb]. intros [= <-].
  apply Z.ltb_ge in R1, R3. rewrite Z.gtb_ltb in R2, R4. apply Z.ltb_ge in R2, R4.
  exists savedAtMs, hours, minutes. split; [|reflexivity].
  exists r, time, savedAt, hoursPart, minutesPart, others.
  repeat split; try assumption.
  intros ->. discriminate Ts.
Qed.

(** The validation never throws: every property it reads is read from a
    value it has checked. *)
Lemma withReference_no_throw row :
  withReference Date_parse row k <> JS.TypeError.
Proof.
  unfold withReference. destruct row as [r|]; [|discriminate].
  cbn [JS.optional JS.member JS.bind].
  destruct (ingame_time r) as [time|]; [|discriminate].
  destruct (negb (JS.truthy (Some time))
            || negb (JS.truthy (ingame_time_saved_at r))); [discriminate|].
  destruct (JS.Date_getTime Date_parse (ingame_time_saved_at r)); [|discriminate].
  cbn [JS.member JS.bind].
  destruct (negb (JS.truthy (JS.element (JS.split ":" time) 0))
            || negb (JS.truthy (JS.element (JS.split ":" time) 1)));
    [discriminate|].
  destruct (JS.parseInt _) as [hours|]; [|discriminate].
  destruct (JS.parseInt _) as [minutes|]; [|discriminate].
  destruct ((hours <? 0) || (hours >? 23) || (minutes <? 0) || (minutes >? 59));
    discriminate.
Qed.

(** On an indeterminate reference the validation answers [null]. *)
Lemma withReference_indeterminate row :
  indeterminate Date_parse row ->
  withReference Date_parse row k = JS.Normal None.
Proof.
  intros H.
  destruct (withReference Date_parse row k) as [[a|]|] eqn:E;
    [|reflexivity|now apply withReference_no_throw in E].
  exfalso. apply withReference_inv in E.
  destruct E as (s & h & m & (r & time & savedAt & hp & mp & others & -> & Ht
                              & Hs & Hh & Rh & Hm & Rm & Hsa & Hne & Hd) & _).
  destruct H as [H|r' E Ht'|r' E Hsa'|r' time' hp' others' E Ht' Hs' Hh'
                 |r' time' hp' mp' others' E Ht' Hs' Hm'|r' savedAt' E Hsa' Hd'];
    try discriminate H; injection E as <-.
  - congruence.
  - congruence.
  - assert (time' = time) as -> by congruence.
    assert (hp' = hp) as -> by congruence.
    assert (h = 24) by congruence. lia.
  - assert (time' = time) as -> by congruence.
    assert (mp' = mp) as -> by congruence.
    assert (m = 60) by congruence. lia.
  - congruence.
Qed.

End Continuation.

Lemma withReference_map {A B : Type} (f : A -> B) (k : Z -> Z -> Z -> A) row :
  completion_map (option_map f) (withReference Date_parse row k)
  = withReference Date_parse row (fun s h m => f (k s h m)).
Proof.
  destruct (withReference Date_parse row k) as [[a|]|] eqn:E; cbn.
  - apply withReference_inv in E. destruct E as (s & h & m & Ho & ->).
    symmetry. exact (withReference_observed (fun s h m => f (k s h m)) _ _ _ _ Ho).
  - destruct (withReference Date_parse row (fun s h m => f (k s h m)))
      as [[b|]|] eqn:E'; [|reflexivity|now apply withReference_no_throw in E'].
    apply withReference_inv in E'. destruct E' as (s & h & m & Ho & _).
    rewrite (withReference_observed k _ _ _ _ Ho) in E. discriminate E.
  - now apply withReference_no_throw in E.
Qed.

End Validation.

(** ** Reading hours and minutes off the normalised seconds *)

Lemma inject_Z_sub (a b : Z) : (inject_Z (a - b) == inject_Z a - inject_Z b)%Q.
Proof.
  unfold Z.sub. rewrite inject_Z_plus, inject_Z_opp. reflexivity.
Qed.

(** Integer constants and sums under [inject_Z], and divisions by a
    constant, in the form linear arithmetic reads. *)
Ltac push_inject :=
  repeat rewrite ?inject_Z_plus, ?inject_Z_sub, ?inject_Z_mult, ?inject_Z_opp in *;
  unfold Qdiv in *;
  repeat match goal with
         | |- context [inject_Z (Zpos ?p)] =>
             change (inject_Z (Zpos p)) with (Zpos p # 1)%Q
         | H : context [inject_Z (Zpos ?p)] |- _ =>
             change (inject_Z (Zpos p)) with (Zpos p # 1)%Q in H
         | |- context [inject_Z (Zneg ?p)] =>
             change (inject_Z (Zneg p)) with (Zneg p # 1)%Q
         | H : context [inject_Z (Zneg ?p)] |- _ =>
             change (inject_Z (Zneg p)) with (Zneg p # 1)%Q in H
         | |- context [inject_Z 0] => change (inject_Z 0) with 0%Q
         | H : context [inject_Z 0] |- _ => change (inject_Z 0) with 0%Q in H
         | |- context [Qinv (Zpos ?p # 1)] =>
             change (Qinv (Zpos p # 1)) with (1 # p)%Q
         | H : context [Qinv (Zpos ?p # 1)] |- _ =>
             change (Qinv (Zpos p # 1)) with (1 # p)%Q in H
         end.

(** An order between integers, decided among the rational facts at hand. *)
Ltac by_rationals :=
  repeat match goal with
         | H : _ /\ _ |- _ => destruct H
         | H : (_ <= _)%Z |- _ => rewrite Zle_Qle in H
         | H : (_ < _)%Z |- _ => rewrite Zlt_Qlt in H
         end;
  rewrite ?Zle_Qle, ?Zlt_Qlt; push_inject; lra.

Section ReadingTheClock.

Local Open Scope Q_scope.

Lemma formatTwoDigits_two_digits (n : Z) :
  (0 <= n < 100)%Z -> formatTwoDigits n = two_digits n.
Proof.
  intros H.
  assert (forallb (fun k => String.eqb (formatTwoDigits (Z.of_nat k))
                                       (two_digits (Z.of_nat k)))
                  (seq 0 100) = true) as All by (vm_compute; reflexivity).
  rewrite forallb_forall in All.
  specialize (All (Z.to_nat n)).
  rewrite Z2Nat.id in All by lia.
  apply String.eqb_eq, All, in_seq. lia.
Qed.

Variable ns : Q.
Hypothesis ns_nonneg : 0 <= ns.
Hypothesis ns_below_day : ns < 86400.

Lemma floor_facts (x : Q) : inject_Z (Qfloor x) <= x /\ x < inject_Z (Qfloor x) + 1.
Proof.
  pose proof (Qfloor_le x) as L. pose proof (Qlt_floor x) as U.
  rewrite inject_Z_plus in U. change (inject_Z 1) with 1 in U. now split.
Qed.

Lemma hours_range : (0 <= Qfloor (ns / 3600) <= 23)%Z.
Proof.
  destruct (floor_facts (ns / 3600)) as [L U].
  split; [assert (-1 < Qfloor (ns / 3600))%Z; [|lia]
         |assert (Qfloor (ns / 3600) < 24)%Z; [|lia]]; by_rationals.
Qed.

Lemma hours_rem_24 : Z.rem (Qfloor (ns / 3600)) 24 = Qfloor (ns / 3600).
Proof. apply Z.rem_small. pose proof hours_range. lia. Qed.

Lemma whole_minutes_range : (0 <= Qfloor (ns / 60) <= 1439)%Z.
Proof.
  destruct (floor_facts (ns / 60)) as [L U].
  split; [assert (-1 < Qfloor (ns / 60))%Z; [|lia]
         |assert (Qfloor (ns / 60) < 1440)%Z; [|lia]]; by_rationals.
Qed.

(** The hour is the whole minutes divided by 60. *)
Lemma hours_of_whole_minutes :
  (60 * Qfloor (ns / 3600) <= Qfloor (ns / 60) < 60 * Qfloor (ns / 3600) + 60)%Z.
Proof.
  destruct (floor_facts (ns / 3600)) as [L U].
  destruct (floor_facts (ns / 60)) as [L' U'].
  split.
  - assert (60 * Qfloor (ns / 3600) < Qfloor (ns / 60) + 1)%Z; [|lia].
    by_rationals.
  - by_rationals.
Qed.

Lemma minutes_of_seconds :
  Qfloor (JS.rem ns 3600 / 60) = (Qfloor (ns / 60) mod 60)%Z.
Proof.
  pose proof hours_of_whole_minutes as B.
  set (H := Qfloor (ns / 3600)) in *. set (F := Qfloor (ns / 60)) in *.
  assert (F mod 60 = F - 60 * H)%Z as ->.
  { symmetry. apply Z.mod_unique with (q := H); lia. }
  assert (JS.rem ns 3600 / 60 == ns / 60 - 60 * inject_Z H) as E.
  { rewrite rem_nonneg by (try reflexivity; assumption).
    unfold true_mod. fold H. field. }
  rewrite (Qfloor_comp _ _ E).
  destruct (floor_facts (ns / 60)) as [L U]. fold F in L, U.
  apply floor_unique; push_inject; lra.
Qed.

Lemma minutes_range : (0 <= Qfloor (ns / 60) mod 60 <= 59)%Z.
Proof. pose proof (Z.mod_pos_bound (Qfloor (ns / 60)) 60). lia. Qed.

(** The label of the phase reads the same hour and minute off the
    normalised minutes. *)
Lemma label_hours (nm : Q) : nm == ns / 60 -> Qfloor (nm / 60) = Qfloor (ns / 3600).
Proof. intros E. apply Qfloor_comp. rewrite E. field. Qed.

Lemma label_minutes (nm : Q) :
  nm == ns / 60 -> Qfloor (JS.rem nm 60) = (Qfloor (ns / 60) mod 60)%Z.
Proof.
  intros E. rewrite <- minutes_of_seconds. apply Qfloor_comp.
  assert (0 <= nm) by (rewrite E; by_rationals).
  rewrite !rem_nonneg by (try reflexivity; assumption).
  unfold true_mod. rewrite (label_hours nm E). rewrite E. field.
Qed.

(** Sub-minute precision is dropped, never rounded up. *)
Lemma clock_truncates :
  let hh := Qfloor (ns / 3600) in
  let mm := (Qfloor (ns / 60) mod 60)%Z in
  inject_Z (hh * 3600 + mm * 60) <= ns /\ ns < inject_Z (hh * 3600 + mm * 60 + 60).
Proof.
  cbv zeta. pose proof hours_of_whole_minutes as B.
  set (H := Qfloor (ns / 3600)) in *.
  destruct (floor_facts (ns / 60)) as [L U].
  set (F := Qfloor (ns / 60)) in *.
  assert (F mod 60 = F - 60 * H)%Z as ->.
  { symmetry. apply Z.mod_unique with (q := H); lia. }
  split; by_rationals.
Qed.

End ReadingTheClock.

(** ** The two derivations on a validated reference *)

Section Derivations.

Local Open Scope Q_scope.

Lemma timeLabel_of_minutes (minutes : Q) :
  timeLabel (getMinecraftPhaseFromMinutes minutes)
  = Some (formatTwoDigits (Qfloor (normalizedMinutes minutes / 60)) ++ ":" ++
          formatTwoDigits (Qfloor (JS.rem (normalizedMinutes minutes) 60))).
Proof.
  unfold getMinecraftPhaseFromMinutes. cbv zeta.
  repeat match goal with
         | |- context [if ?c then _ else _] => destruct c
         end; reflexivity.
Qed.

(** The minutes of normalised seconds are normalised minutes. *)
Lemma minutes_of_normalized_seconds (ns : Q) :
  0 <= ns -> ns < 86400 -> normalizedMinutes (ns / 60) == ns / 60.
Proof.
  intros H0 H1. rewrite normalizedMinutes_true_mod.
  apply true_mod_small; by_rationals.
Qed.

(** The clock and the label of the live clock, read off the normalised
    seconds. *)
Lemma liveClockOfSeconds_reads (totalSeconds : Q) :
  let ns := normalizeMinecraftSeconds totalSeconds in
  let reading := hhmm (Qfloor (ns / 3600)) (Qfloor (ns / 60) mod 60) in
  clock (liveClockOfSeconds totalSeconds) = reading
  /\ timeLabel (phaseDetails (liveClockOfSeconds totalSeconds)) = Some reading.
Proof.
  cbv zeta. unfold liveClockOfSeconds. cbv zeta. cbn [clock phaseDetails].
  destruct (normalizeMinecraftSeconds_bound totalSeconds) as [H0 H1].
  set (ns := normalizeMinecraftSeconds totalSeconds) in *.
  pose proof (hours_range ns H0 H1) as Rh.
  pose proof (minutes_range ns) as Rm.
  pose proof (minutes_of_normalized_seconds ns H0 H1) as En.
  unfold hhmm, getPhasePreviewFromMinutes, JS.floor. split.
  - rewrite (hours_rem_24 ns H0 H1), (minutes_of_seconds ns H0).
    rewrite !formatTwoDigits_two_digits by lia. reflexivity.
  - rewrite timeLabel_of_minutes.
    rewrite (label_hours ns _ En), (label_minutes ns H0 _ En).
    rewrite !formatTwoDigits_two_digits by lia. reflexivity.
Qed.

Lemma normalizeMinecraftSeconds_comp (a b : Q) :
  a == b -> normalizeMinecraftSeconds a == normalizeMinecraftSeconds b.
Proof.
  intros E. rewrite !normalizeMinecraftSeconds_true_mod, E. reflexivity.
Qed.

Lemma normalizedMinutes_comp (a b : Q) :
  a == b -> normalizedMinutes a == normalizedMinutes b.
Proof.
  intros E. rewrite !normalizedMinutes_true_mod, E. reflexivity.
Qed.

(** The phase of the live clock is the phase of the total of minutes. *)
Lemma live_phase_of_total_minutes (totalSeconds totalMinutes : Q) :
  totalSeconds / 60 == totalMinutes ->
  phaseDetails (liveClockOfSeconds totalSeconds)
  = getMinecraftPhaseFromMinutes totalMinutes.
Proof.
  intros E. unfold liveClockOfSeconds. cbv zeta. cbn [phaseDetails].
  unfold getPhasePreviewFromMinutes.
  apply getMinecraftPhaseFromMinutes_congr.
  destruct (normalizeMinecraftSeconds_bound totalSeconds) as [H0 H1].
  rewrite (minutes_of_normalized_seconds _ H0 H1).
  rewrite normalizeMinecraftSeconds_true_mod, <- true_mod_minutes.
  rewrite normalizedMinutes_true_mod, E. reflexivity.
Qed.

(** One simulated minute is 60 simulated seconds, for the elapsed time
    too: the two totals agree. *)
Lemma totals_agree (savedAtMs hours minutes instant : Z) :
  liveTotalSeconds savedAtMs hours minutes instant / 60
  == targetTotalMinutes savedAtMs hours minutes instant.
Proof.
  unfold liveTotalSeconds, targetTotalMinutes.
  set (e := JS.max 0 (inject_Z (instant - savedAtMs) / 1000)).
  unfold MINECRAFT_SECONDS_PER_REAL_SECOND, MINECRAFT_HOUR_SECONDS.
  rewrite (inject_Z_mult (hours * 60 + minutes) 60).
  change (inject_Z 60) with 60. field.
Qed.

(** A query that is not after the observation adds nothing. *)
Lemma no_elapsed_time (savedAtMs instant : Z) :
  (instant <= savedAtMs)%Z ->
  JS.max 0 (inject_Z (instant - savedAtMs) / 1000) == 0.
Proof.
  intros H. unfold JS.max. apply Q.max_l.
  assert (inject_Z (instant - savedAtMs) <= 0) as N
      by (change 0 with (inject_Z 0); rewrite <- Zle_Qle; lia).
  push_inject. lra.
Qed.

Lemma liveTotalSeconds_at_observation (savedAtMs hours minutes instant : Z) :
  (instant <= savedAtMs)%Z ->
  liveTotalSeconds savedAtMs hours minutes instant
  == inject_Z ((hours * 60 + minutes) * 60).
Proof.
  intros H. unfold liveTotalSeconds. rewrite (no_elapsed_time _ _ H). ring.
Qed.

Lemma targetTotalMinutes_at_observation (savedAtMs hours minutes target : Z) :
  (target <= savedAtMs)%Z ->
  targetTotalMinutes savedAtMs hours minutes target
  == inject_Z (hours * 60 + minutes).
Proof.
  intros H. unfold targetTotalMinutes. rewrite (no_elapsed_time _ _ H). ring.
Qed.

(** Elapsed time is never negative, nor is the total. *)
Lemma liveTotalSeconds_nonneg (savedAtMs hours minutes nowMs : Z) :
  (0 <= hours)%Z -> (0 <= minutes)%Z ->
  0 <= liveTotalSeconds savedAtMs hours minutes nowMs.
Proof.
  intros Hh Hm. unfold liveTotalSeconds.
  assert (0 <= JS.max 0 (inject_Z (nowMs - savedAtMs) / 1000)) as E
      by apply Q.le_max_l.
  assert (0 <= inject_Z ((hours * 60 + minutes) * 60)) as B
      by (change 0 with (inject_Z 0); rewrite <- Zle_Qle; lia).
  set (e := JS.max 0 (inject_Z (nowMs - savedAtMs) / 1000)) in *.
  set (b := inject_Z ((hours * 60 + minutes) * 60)) in *.
  unfold MINECRAFT_SECONDS_PER_REAL_SECOND, MINECRAFT_HOUR_SECONDS.
  push_inject. lra.
Qed.

End Derivations.

(** ** The properties of the specification *)

Lemma phase_names_distinct :
  NoDup [Dawn; Day; Dusk; Night].
Proof.
  repeat constructor; cbn; intuition discriminate.
Qed.

(** C1.  For every whole minute [m] of the day, [0 <= m < 1440], the phase
    lookup returns one of the four phases, and which one is decided by the
    interval [m] lies in: dawn on [273, 387), day on [387, 1057), dusk on
    [1057, 1188), night on [1188, 1440) and [0, 273).  The four names being
    distinct, every minute has exactly one phase and the intervals
    partition the day. *)
Theorem phase_partition (m : Z) :
  0 <= m < 1440 ->
  let p := phase (getMinecraftPhaseFromMinutes (inject_Z m)) in
  (p = Dawn \/ p = Day \/ p = Dusk \/ p = Night)
  /\ (p = Dawn <-> 273 <= m < 387)
  /\ (p = Day <-> 387 <= m < 1057)
  /\ (p = Dusk <-> 1057 <= m < 1188)
  /\ (p = Night <-> 1188 <= m < 1440 \/ 0 <= m < 273)
  /\ NoDup [Dawn; Day; Dusk; Night].
Proof.
  intros Hm. cbv zeta.
  destruct (phase_intervals (inject_Z m)) as (HA & HJ & HC & HN).
  assert (normalizedMinutes (inject_Z m) == inject_Z m)%Q as E.
  { rewrite normalizedMinutes_true_mod. apply true_mod_small; by_rationals. }
  rewrite E in HA, HJ, HC, HN.
  assert (0 <= m < 273 \/ 273 <= m < 387 \/ 387 <= m < 1057
          \/ 1057 <= m < 1188 \/ 1188 <= m < 1440)
    as [C|[C|[C|[C|C]]]] by lia;
    [rewrite HN by (left; by_rationals)
    |rewrite HA by (split; by_rationals)
    |rewrite HJ by (split; by_rationals)
    |rewrite HC by (split; by_rationals)
    |rewrite HN by (right; by_rationals)];
    unfold Dawn, Day, Dusk, Night, Aube, Jour, Crepuscule, Nuit;
    repeat split; try apply phase_names_distinct;
    try (intros; (discriminate || lia)); auto.
Qed.

Lemma phase_partition_witness :
  0 <= 386 < 1440
  /\ phase (getMinecraftPhaseFromMinutes (inject_Z 386)) = Dawn
  /\ phase (getMinecraftPhaseFromMinutes (inject_Z 387)) = Day.
Proof.
  split; [lia|]. split.
  - apply (phase_partition 386); lia.
  - apply (phase_partition 387); lia.
Defined.

(** C5.  The lookup normalises a whole number of minutes with the
    mathematical modulo of 1440, into [0, 1440), negative numbers included.
    The remainder operator alone would leave -10 at -10; the lookup takes
    it to 1430, so that -10 and 1430 have the same phase and label, and the
    phase is night.  The same holds over binary64, where [%] leaves -10 at
    -10 and the lookup answers night at 23:50 for -10 and for 1430. *)
Theorem negative_minutes_wrap :
  (forall m : Z,
      isSafeInteger m ->
      (normalizedMinutes (inject_Z m) == inject_Z (m mod 1440))%Q
      /\ 0 <= m mod 1440 < 1440)
  /\ (JS.rem (-10) 1440 == -10)%Q
  /\ (normalizedMinutes (-10) == 1430)%Q
  /\ getMinecraftPhaseFromMinutes (-10) = getMinecraftPhaseFromMinutes 1430
  /\ phase (getMinecraftPhaseFromMinutes 1430) = Night
  /\ phase (getMinecraftPhaseFromMinutes (-10)) = Night
  /\ F64.rem (F64.of_Z (-10)) (F64.of_Z 1440) = F64.of_Z (-10)
  /\ F64.normalizedMinutes (F64.of_Z (-10)) = F64.of_Z 1430
  /\ F64.getMinecraftPhaseFromMinutes (F64.of_Z (-10))
     = {| phase := Night; timeLabel := Some "23:50" |}
  /\ F64.getMinecraftPhaseFromMinutes (F64.of_Z 1430)
     = {| phase := Night; timeLabel := Some "23:50" |}.
Proof.
  split.
  - intros m _. split; [apply normalizedMinutes_inject_Z|].
    apply Z.mod_pos_bound. lia.
  - repeat apply conj; vm_compute; reflexivity.
Qed.

Lemma negative_minutes_wrap_witness :
  isSafeInteger (-10)
  /\ (normalizedMinutes (inject_Z (-10)) == inject_Z 1430)%Q.
Proof.
  split; [unfold isSafeInteger; simpl; lia|].
  apply (proj1 negative_minutes_wrap (-10)). unfold isSafeInteger. simpl. lia.
Defined.

(** C3.  The reference 06:00 observed at 2024-01-01T00:00:00Z, queried at
    2024-01-01T00:00:27Z: 27 seconds at 72 simulated seconds a second are
    1944 simulated seconds, the total is 392.4 simulated minutes, the phase
    is day and the clock reads 06:32. *)
Theorem scenario_0600_plus_27s :
  forall (row : SpawnTimerRow) (nowMs : Z),
    ingame_time row = Some "06:00" ->
    ingame_time_saved_at row = Some "2024-01-01T00:00:00Z" ->
    IsoDate.parse "2024-01-01T00:00:27Z" = Some nowMs ->
    IsoDate.parse "2024-01-01T00:00:00Z" = Some (nowMs - 27000)
    /\ (27 * MINECRAFT_SECONDS_PER_REAL_SECOND == 1944)%Q
    /\ (liveTotalSeconds (nowMs - 27000) 6 0 nowMs / 60 == 3924 / 10)%Q
    /\ deriveLiveMinecraftClock IsoDate.parse (Some row) nowMs
       = JS.Normal
           (Some {| clock := "06:32";
                    phaseDetails := {| phase := Day;
                                       timeLabel := Some "06:32" |} |}).
Proof.
  intros [i t n time savedAt] nowMs Ht Hs [= <-]. cbn in Ht, Hs. subst.
  repeat split.
Qed.

Lemma scenario_0600_plus_27s_witness :
  deriveLiveMinecraftClock IsoDate.parse
    (Some (referenceRow "06:00" "2024-01-01T00:00:00Z")) 1704067227000
  = JS.Normal
      (Some {| clock := "06:32";
               phaseDetails := {| phase := Day; timeLabel := Some "06:32" |} |}).
Proof.
  apply (scenario_0600_plus_27s
           (referenceRow "06:00" "2024-01-01T00:00:00Z") 1704067227000);
    reflexivity.
Defined.

Section Properties.

Variable Date_parse : string -> option Z.

Local Abbreviation live := (deriveLiveMinecraftClock Date_parse).
Local Abbreviation atDate := (deriveMinecraftClockAtDate Date_parse).

(** Whether a row carries a valid reference decides the outcome of every
    computation that follows the validation. *)
Lemma withReference_cases (row : option SpawnTimerRow) :
  (exists savedAtMs hours minutes,
      observed Date_parse row savedAtMs hours minutes
      /\ forall (A : Type) (k : Z -> Z -> Z -> A),
          withReference Date_parse row k
          = JS.Normal (Some (k savedAtMs hours minutes)))
  \/ (forall (A : Type) (k : Z -> Z -> Z -> A),
         withReference Date_parse row k = JS.Normal None).
Proof.
  destruct (withReference Date_parse row (fun s h m => (s, h, m)))
    as [[[[s h] m]|]|] eqn:E.
  - left. apply withReference_inv in E.
    destruct E as (s' & h' & m' & Ho & _).
    exists s', h', m'. split; [assumption|].
    intros A k. now apply withReference_observed.
  - right. intros A k.
    destruct (withReference Date_parse row k) as [[a|]|] eqn:E';
      [|reflexivity|now apply withReference_no_throw in E'].
    apply withReference_inv in E'. destruct E' as (s & h & m & Ho & _).
    rewrite (withReference_observed Date_parse (fun s h m => (s, h, m))
               _ _ _ _ Ho) in E.
    discriminate E.
  - now apply withReference_no_throw in E.
Qed.

(** C2.  Whether an answer is given is the same for both derivations, for
    every row, absent and malformed ones included, and every instant: one is
    [null] exactly when the other is.  On a valid reference queried at most
    [horizonMs] after the observation (or before it), the phase details at
    the instant are the phase details of the live clock at that instant:
    the same phase and the same label. *)
Theorem live_and_predicted_phase_agree_within_horizon :
  (forall row instant,
      atDate row instant = JS.Normal None <-> live row instant = JS.Normal None)
  /\ (forall row savedAtMs hours minutes instant,
        observed Date_parse row savedAtMs hours minutes ->
        withinHorizon savedAtMs instant ->
        exists result,
          live row instant = JS.Normal (Some result)
          /\ atDate row instant = JS.Normal (Some (phaseDetails result))).
Proof.
  split.
  - intros row instant.
    rewrite deriveLiveMinecraftClock_withReference,
      deriveMinecraftClockAtDate_withReference.
    destruct (withReference_cases row) as [(s & h & m & _ & E)|E];
      rewrite !E; split; intros H; (discriminate H || reflexivity).
  - intros row s h m instant Ho _.
    exists (liveClockOfSeconds (liveTotalSeconds s h m instant)).
    rewrite deriveLiveMinecraftClock_withReference,
      deriveMinecraftClockAtDate_withReference.
    rewrite !(withReference_observed Date_parse _ _ _ _ _ Ho).
    split; [reflexivity|]. do 2 f_equal. symmetry.
    apply live_phase_of_total_minutes, totals_agree.
Qed.

(** The phase details of a minute of the day [hours:minutes] carry that
    time as their label. *)
Lemma label_of_time_of_day (hours minutes : Z) :
  0 <= hours <= 23 -> 0 <= minutes <= 59 ->
  timeLabel (getMinecraftPhaseFromMinutes (inject_Z (hours * 60 + minutes)))
  = Some (hhmm hours minutes).
Proof.
  intros Hh Hm. rewrite timeLabel_of_minutes.
  set (t := hours * 60 + minutes).
  assert (normalizedMinutes (inject_Z t) == inject_Z t)%Q as E.
  { rewrite normalizedMinutes_true_mod. subst t.
    apply true_mod_small; by_rationals. }
  assert (Qfloor (normalizedMinutes (inject_Z t) / 60) = hours) as ->.
  { assert (normalizedMinutes (inject_Z t) / 60 == inject_Z t / 60)%Q as E1
        by (rewrite E; reflexivity).
    rewrite (Qfloor_comp _ _ E1).
    subst t. apply floor_unique; by_rationals. }
  assert (Qfloor (JS.rem (normalizedMinutes (inject_Z t)) 60) = minutes) as ->.
  { assert (JS.rem (normalizedMinutes (inject_Z t)) 60 == inject_Z minutes)%Q
      as ->.
    { destruct (normalizedMinutes_bound (inject_Z t)) as [N0 _].
      rewrite rem_nonneg by (try reflexivity; assumption).
      rewrite E. unfold true_mod.
      assert (Qfloor (inject_Z t / 60) = hours) as ->
          by (subst t; apply floor_unique; by_rationals).
      subst t. push_inject. ring. }
    apply Qfloor_Z. }
  unfold hhmm. rewrite !formatTwoDigits_two_digits by lia. reflexivity.
Qed.

(** C4.  On a valid reference, the time of day [hours:minutes] observed at
    [savedAtMs], a query at an instant that is not after the observation
    succeeds in both derivations and gives the reference time itself: the
    live clock reads [hours:minutes], and the phase details of both are
    those of the minute [hours * 60 + minutes], labelled [hours:minutes]. *)
Theorem query_before_observation
    (row : option SpawnTimerRow) (savedAtMs hours minutes instant : Z) :
  observed Date_parse row savedAtMs hours minutes ->
  instant <= savedAtMs ->
  let reference := getMinecraftPhaseFromMinutes (inject_Z (hours * 60 + minutes)) in
  live row instant
  = JS.Normal (Some {| clock := hhmm hours minutes; phaseDetails := reference |})
  /\ atDate row instant = JS.Normal (Some reference)
  /\ timeLabel reference = Some (hhmm hours minutes).
Proof.
  intros Ho Hi. cbv zeta.
  assert (0 <= hours <= 23 /\ 0 <= minutes <= 59) as [Rh Rm].
  { destruct Ho as (r & time & savedAt & hp & mp & others & _ & _ & _ & _ & Rh
                    & _ & Rm & _). now split. }
  pose proof (label_of_time_of_day hours minutes Rh Rm) as L.
  assert (phaseDetails (liveClockOfSeconds
                          (liveTotalSeconds savedAtMs hours minutes instant))
          = getMinecraftPhaseFromMinutes (inject_Z (hours * 60 + minutes))) as P.
  { apply live_phase_of_total_minutes.
    rewrite totals_agree. now apply targetTotalMinutes_at_observation. }
  split; [|split; [|assumption]].
  - rewrite deriveLiveMinecraftClock_withReference.
    rewrite (withReference_observed Date_parse _ _ _ _ _ Ho).
    do 2 f_equal.
    destruct (liveClockOfSeconds_reads
                (liveTotalSeconds savedAtMs hours minutes instant)) as [C T].
    cbv zeta in C, T. rewrite P, L in T. rewrite <- C in T.
    revert P T.
    generalize (liveClockOfSeconds
                  (liveTotalSeconds savedAtMs hours minutes instant)).
    intros [c d]. cbn [clock phaseDetails]. congruence.
  - rewrite deriveMinecraftClockAtDate_withReference.
    rewrite (withReference_observed Date_parse _ _ _ _ _ Ho).
    do 2 f_equal. apply getMinecraftPhaseFromMinutes_congr.
    apply normalizedMinutes_comp.
    now apply targetTotalMinutes_at_observation.
Qed.

(** C6.  Neither derivation ever throws, whatever the row and the instant;
    and on an indeterminate reference (no row, no time of day, no
    timestamp, an hour of 24, a minute of 60, a timestamp that is not a
    date) both answer [null]. *)
Theorem indeterminate_is_null :
  (forall row instant,
      live row instant <> JS.TypeError /\ atDate row instant <> JS.TypeError)
  /\ (forall row instant,
        indeterminate Date_parse row ->
        live row instant = JS.Normal None
        /\ atDate row instant = JS.Normal None).
Proof.
  split; intros row instant.
  - rewrite deriveLiveMinecraftClock_withReference,
      deriveMinecraftClockAtDate_withReference.
    split; apply withReference_no_throw.
  - intros H.
    rewrite deriveLiveMinecraftClock_withReference,
      deriveMinecraftClockAtDate_withReference.
    split; now apply withReference_indeterminate.
Qed.

(** C7.  The ratio is 72 simulated seconds a second, 3600 simulated seconds
    in 50 seconds; the reference 00:00 observed at [savedAtMs] and queried
    50 seconds later reads 01:00, on the live clock and on its label. *)
Theorem one_hour_per_50_seconds (row : SpawnTimerRow) (savedAt : string)
    (savedAtMs : Z) :
  ingame_time row = Some "00:00" ->
  ingame_time_saved_at row = Some savedAt ->
  savedAt <> "" ->
  Date_parse savedAt = Some savedAtMs ->
  (MINECRAFT_SECONDS_PER_REAL_SECOND == 72)%Q
  /\ (50 * MINECRAFT_SECONDS_PER_REAL_SECOND == 3600)%Q
  /\ live (Some row) (savedAtMs + 50 * 1000)
     = JS.Normal
         (Some {| clock := "01:00";
                  phaseDetails := {| phase := Night;
                                     timeLabel := Some "01:00" |} |}).
Proof.
  intros Ht Hs Hne Hd. split; [reflexivity|]. split; [reflexivity|].
  rewrite deriveLiveMinecraftClock_withReference.
  rewrite (withReference_observed Date_parse _ (Some row) savedAtMs 0 0).
  - unfold liveTotalSeconds.
    replace (savedAtMs + 50 * 1000 - savedAtMs) with 50000 by lia.
    reflexivity.
  - exists row, "00:00", savedAt, "00", "00", [].
    repeat split; try assumption; try reflexivity; lia.
Qed.

(** C8.  The normalisation takes a whole number of seconds to its
    mathematical modulo of 86400, in [0, 86400).  On a valid reference the
    live clock succeeds at every instant (a time value), and its clock is a
    two-digit hour in [0, 23], a colon and a two-digit minute in [0, 59].
    At most
    [horizonMs] after the observation (or before it) the total of simulated
    seconds is not negative, the normalised seconds are its modulo of
    86400, and the clock shows their whole hours and whole minutes, what is
    left of the minute being dropped. *)
Theorem live_clock_is_truncated_hhmm_within_horizon :
  (forall seconds : Z,
      isSafeInteger seconds ->
      (normalizeMinecraftSeconds (inject_Z seconds)
       == inject_Z (seconds mod 86400))%Q
      /\ 0 <= seconds mod 86400 < 86400)
  /\ (forall row savedAtMs hours minutes nowMs,
        observed Date_parse row savedAtMs hours minutes ->
        timeValue nowMs ->
        exists result hh mm,
          live row nowMs = JS.Normal (Some result)
          /\ clock result = two_digits hh ++ ":" ++ two_digits mm
          /\ 0 <= hh <= 23 /\ 0 <= mm <= 59)
  /\ (forall row savedAtMs hours minutes nowMs,
        observed Date_parse row savedAtMs hours minutes ->
        withinHorizon savedAtMs nowMs ->
        let totalSeconds := liveTotalSeconds savedAtMs hours minutes nowMs in
        let ns := normalizeMinecraftSeconds totalSeconds in
        let hh := Qfloor (ns / 3600) in
        let mm := Qfloor (ns / 60) mod 60 in
        (0 <= totalSeconds)%Q
        /\ (ns == true_mod totalSeconds 86400)%Q
        /\ (exists result,
              live row nowMs = JS.Normal (Some result)
              /\ clock result = two_digits hh ++ ":" ++ two_digits mm)
        /\ 0 <= hh <= 23 /\ 0 <= mm <= 59
        /\ (inject_Z (hh * 3600 + mm * 60) <= ns)%Q
        /\ (ns < inject_Z (hh * 3600 + mm * 60 + 60))%Q).
Proof.
  assert (forall row savedAtMs hours minutes nowMs,
             observed Date_parse row savedAtMs hours minutes ->
             let total := liveTotalSeconds savedAtMs hours minutes nowMs in
             let ns := normalizeMinecraftSeconds total in
             (exists result,
                 live row nowMs = JS.Normal (Some result)
                 /\ clock result
                    = two_digits (Qfloor (ns / 3600)) ++ ":" ++
                      two_digits (Qfloor (ns / 60) mod 60))
             /\ 0 <= Qfloor (ns / 3600) <= 23
             /\ 0 <= Qfloor (ns / 60) mod 60 <= 59) as Reads.
  { intros row savedAtMs hours minutes nowMs Ho. cbv zeta.
    set (total := liveTotalSeconds savedAtMs hours minutes nowMs).
    destruct (normalizeMinecraftSeconds_bound total) as [N0 N1].
    split; [|split; [exact (hours_range _ N0 N1)|apply minutes_range]].
    exists (liveClockOfSeconds total). split.
    - rewrite deriveLiveMinecraftClock_withReference.
      now rewrite (withReference_observed Date_parse _ _ _ _ _ Ho).
    - apply liveClockOfSeconds_reads. }
  split; [|split].
  - intros seconds _. split; [apply normalizeMinecraftSeconds_inject_Z|].
    apply Z.mod_pos_bound. lia.
  - intros row savedAtMs hours minutes nowMs Ho _.
    pose proof (Reads row savedAtMs hours minutes nowMs Ho) as R.
    cbv zeta in R. destruct R as ((result & L & C) & Rh & Rm).
    exists result. do 2 eexists.
    split; [exact L|]. split; [exact C|]. split; [exact Rh|exact Rm].
  - intros row savedAtMs hours minutes nowMs Ho _. cbv zeta.
    pose proof (Reads row savedAtMs hours minutes nowMs Ho) as R.
    cbv zeta in R. destruct R as (R & Rh & Rm).
    assert (0 <= hours <= 23 /\ 0 <= minutes <= 59) as [Bh Bm].
    { destruct Ho as (r & time & savedAt & hp & mp & others & _ & _ & _ & _
                      & Bh & _ & Bm & _). now split. }
    split; [apply liveTotalSeconds_nonneg; lia|].
    split; [apply normalizeMinecraftSeconds_true_mod|].
    split; [exact R|]. split; [exact Rh|]. split; [exact Rm|].
    exact (clock_truncates _).
Qed.

(** C9.  Whenever the live clock gives a result, the label of its phase
    details is its clock string. *)
Theorem label_is_clock (row : option SpawnTimerRow) (nowMs : Z)
    (result : LiveClock) :
  live row nowMs = JS.Normal (Some result) ->
  timeLabel (phaseDetails result) = Some (clock result).
Proof.
  rewrite deriveLiveMinecraftClock_withReference. intros E.
  apply withReference_inv in E. destruct E as (s & h & m & _ & ->).
  destruct (liveClockOfSeconds_reads (liveTotalSeconds s h m nowMs)) as [C T].
  cbv zeta in C, T. rewrite T, C. reflexivity.
Qed.

(** C10.  The segments of the time of day after the second are not looked
    at: when the first two parse to an hour in [0, 23] and a minute in
    [0, 59] (and the timestamp is a date), both derivations give a result,
    which is computed from the hour, the minute and the instants alone.  So
    06:30:45 is read as 06:30. *)
Theorem extra_segments_are_ignored :
  (forall row time hoursPart minutesPart others savedAt savedAtMs
          hours minutes instant,
      ingame_time row = Some time ->
      JS.split ":" time = hoursPart :: minutesPart :: others ->
      JS.parseInt hoursPart = Some hours -> 0 <= hours <= 23 ->
      JS.parseInt minutesPart = Some minutes -> 0 <= minutes <= 59 ->
      ingame_time_saved_at row = Some savedAt -> savedAt <> "" ->
      Date_parse savedAt = Some savedAtMs ->
      live (Some row) instant
      = JS.Normal (Some (liveClockOfSeconds
                           (liveTotalSeconds savedAtMs hours minutes instant)))
      /\ atDate (Some row) instant
         = JS.Normal (Some (getMinecraftPhaseFromMinutes
                              (targetTotalMinutes savedAtMs hours minutes instant))))
  /\ JS.split ":" "06:30:45" = ["06"; "30"; "45"]
  /\ (forall savedAt instant,
        live (Some (referenceRow "06:30:45" savedAt)) instant
        = live (Some (referenceRow "06:30" savedAt)) instant
        /\ atDate (Some (referenceRow "06:30:45" savedAt)) instant
           = atDate (Some (referenceRow "06:30" savedAt)) instant).
Proof.
  split; [|split; [reflexivity|]].
  - intros row time hp mp others savedAt savedAtMs hours minutes instant
           Ht Hs Hh Rh Hm Rm Hsa Hne Hd.
    assert (observed Date_parse (Some row) savedAtMs hours minutes) as Ho.
    { exists row, time, savedAt, hp, mp, others. repeat split; assumption || lia. }
    rewrite deriveLiveMinecraftClock_withReference,
      deriveMinecraftClockAtDate_withReference.
    now rewrite !(withReference_observed Date_parse _ _ _ _ _ Ho).
  - intros savedAt instant.
    unfold deriveLiveMinecraftClock, deriveMinecraftClockAtDate.
    cbn [JS.optional JS.member JS.bind referenceRow ingame_time
         ingame_time_saved_at JS.Date_getTime].
    destruct savedAt as [|c savedAt]; [split; reflexivity|].
    cbn [JS.truthy negb orb].
    destruct (Date_parse (String c savedAt)); split; reflexivity.
Qed.

End Properties.

(** ** The properties on concrete references *)

(** The row whose time of day is 06:30:45, saved at the start of 2024,
    carries the reference 06:30. *)
Lemma observed_0630 :
  observed IsoDate.parse
    (Some (referenceRow "06:30:45" "2024-01-01T00:00:00Z")) 1704067200000 6 30.
Proof.
  exists (referenceRow "06:30:45" "2024-01-01T00:00:00Z"),
    "06:30:45", "2024-01-01T00:00:00Z", "06", "30", ["45"].
  repeat split; try reflexivity; try lia. discriminate.
Defined.

Lemma query_before_observation_witness :
  1704067199000 <= 1704067200000
  /\ deriveLiveMinecraftClock IsoDate.parse
       (Some (referenceRow "06:30:45" "2024-01-01T00:00:00Z")) 1704067199000
     = JS.Normal
         (Some {| clock := "06:30";
                  phaseDetails := {| phase := Day;
                                     timeLabel := Some "06:30" |} |}).
Proof.
  split; [lia|].
  apply (query_before_observation IsoDate.parse
           (Some (referenceRow "06:30:45" "2024-01-01T00:00:00Z"))
           1704067200000 6 30 1704067199000).
  - exact observed_0630.
  - lia.
Defined.

Lemma indeterminate_is_null_witness :
  JS.parseInt "24" = Some 24
  /\ deriveLiveMinecraftClock IsoDate.parse
       (Some (referenceRow "24:00" "2024-01-01T00:00:00Z")) 1704067200000
     = JS.Normal None
  /\ deriveMinecraftClockAtDate IsoDate.parse
       (Some (referenceRow "24:00" "2024-01-01T00:00:00Z")) 1704067200000
     = JS.Normal None.
Proof.
  split; [reflexivity|].
  apply (proj2 (indeterminate_is_null IsoDate.parse)).
  apply (hour_24 IsoDate.parse _
           (referenceRow "24:00" "2024-01-01T00:00:00Z") "24:00" "24" ["00"]);
    reflexivity.
Defined.

Lemma one_hour_per_50_seconds_witness :
  IsoDate.parse "2024-01-01T00:00:00Z" = Some 1704067200000
  /\ deriveLiveMinecraftClock IsoDate.parse
       (Some (referenceRow "00:00" "2024-01-01T00:00:00Z"))
       (1704067200000 + 50 * 1000)
     = JS.Normal
         (Some {| clock := "01:00";
                  phaseDetails := {| phase := Night;
                                     timeLabel := Some "01:00" |} |}).
Proof.
  split; [reflexivity|].
  apply (one_hour_per_50_seconds IsoDate.parse
           (referenceRow "00:00" "2024-01-01T00:00:00Z")
           "2024-01-01T00:00:00Z" 1704067200000);
    reflexivity || discriminate.
Defined.

(** The query 27.5 seconds after the observation of the start of 2024 is
    within the horizon. *)
Lemma within_horizon_27500 : withinHorizon 1704067200000 1704067227500.
Proof. unfold withinHorizon, timeValue, horizonMs. lia. Defined.

Lemma live_and_predicted_phase_agree_within_horizon_witness :
  withinHorizon 1704067200000 1704067227500
  /\ exists result,
      deriveLiveMinecraftClock IsoDate.parse
        (Some (referenceRow "06:30:45" "2024-01-01T00:00:00Z")) 1704067227500
      = JS.Normal (Some result)
      /\ deriveMinecraftClockAtDate IsoDate.parse
           (Some (referenceRow "06:30:45" "2024-01-01T00:00:00Z")) 1704067227500
         = JS.Normal (Some (phaseDetails result)).
Proof.
  split; [exact within_horizon_27500|].
  exact (proj2 (live_and_predicted_phase_agree_within_horizon IsoDate.parse)
           (Some (referenceRow "06:30:45" "2024-01-01T00:00:00Z"))
           1704067200000 6 30 1704067227500 observed_0630 within_horizon_27500).
Defined.

(** C2 without the horizon fails on the doubles of the page.  The
    reference 00:14 observed at the start of 2024 and queried at the time
    value 4960416545778333 (a date that [Date] holds, some 157 thousand
    years on): the phase at the instant is dusk at 19:47, the live clock
    reads 19:48 and is in the night. *)
Lemma live_and_predicted_phase_differ_far_out :
  timeValue 4960416545778333
  /\ ~ withinHorizon 1704067200000 4960416545778333
  /\ F64.deriveMinecraftClockAtDate IsoDate.parse
       (Some (referenceRow "00:14" "2024-01-01T00:00:00Z")) 4960416545778333
     = JS.Normal (Some {| phase := Dusk; timeLabel := Some "19:47" |})
  /\ F64.deriveLiveMinecraftClock IsoDate.parse
       (Some (referenceRow "00:14" "2024-01-01T00:00:00Z")) 4960416545778333
     = JS.Normal
         (Some {| clock := "19:48";
                  phaseDetails := {| phase := Night;
                                     timeLabel := Some "19:48" |} |}).
Proof.
  split; [unfold timeValue; lia|].
  split; [unfold withinHorizon, horizonMs; lia|].
  split; vm_compute; reflexivity.
Qed.

Lemma live_clock_is_truncated_hhmm_within_horizon_witness :
  withinHorizon 1704067200000 1704067227500
  /\ exists result,
      deriveLiveMinecraftClock IsoDate.parse
        (Some (referenceRow "06:30:45" "2024-01-01T00:00:00Z")) 1704067227500
      = JS.Normal (Some result)
      /\ clock result = "07:03".
Proof.
  split; [exact within_horizon_27500|].
  exact (proj1 (proj2 (proj2
           (proj2 (proj2 (live_clock_is_truncated_hhmm_within_horizon
                            IsoDate.parse))
              (Some (referenceRow "06:30:45" "2024-01-01T00:00:00Z"))
              1704067200000 6 30 1704067227500 observed_0630
              within_horizon_27500)))).
Defined.

(** C8 without its bounds fails on the doubles of the page.  The greatest
    double below 86400 is not negative and is its own modulo of 86400; the
    normalisation takes it to 0.  And the reference 02:14 observed at the
    start of 2024, queried at the time value 4819504838765833: the total of
    simulated seconds is in the minute 09:32, which is what the exact
    reading shows, and the live clock of the page prints 09:33. *)
Lemma live_clock_rounds_far_out :
  F64.to_Q (F64.dyadic (86400 * 2 ^ 36 - 1) (-36))
  = Some (Qmake (86400 * 2 ^ 36 - 1) (2 ^ 36))
  /\ F64.normalizeMinecraftSeconds (F64.dyadic (86400 * 2 ^ 36 - 1) (-36))
     = F64.of_Z 0
  /\ timeValue 4819504838765833
  /\ ~ withinHorizon 1704067200000 4819504838765833
  /\ F64.deriveLiveMinecraftClock IsoDate.parse
       (Some (referenceRow "02:14" "2024-01-01T00:00:00Z")) 4819504838765833
     = JS.Normal
         (Some {| clock := "09:33";
                  phaseDetails := {| phase := Day;
                                     timeLabel := Some "09:33" |} |})
  /\ deriveLiveMinecraftClock IsoDate.parse
       (Some (referenceRow "02:14" "2024-01-01T00:00:00Z")) 4819504838765833
     = JS.Normal
         (Some {| clock := "09:32";
                  phaseDetails := {| phase := Day;
                                     timeLabel := Some "09:32" |} |}).
Proof.
  split; [vm_compute; reflexivity|].
  split; [vm_compute; reflexivity|].
  split; [unfold timeValue; lia|].
  split; [unfold withinHorizon, horizonMs; lia|].
  split; vm_compute; reflexivity.
Qed.

Lemma label_is_clock_witness :
  timeLabel
    (phaseDetails
       {| clock := "06:32";
          phaseDetails := {| phase := Day; timeLabel := Some "06:32" |} |})
  = Some "06:32".
Proof.
  apply (label_is_clock IsoDate.parse
           (Some (referenceRow "06:00" "2024-01-01T00:00:00Z")) 1704067227000).
  reflexivity.
Defined.

Lemma extra_segments_are_ignored_witness :
  deriveLiveMinecraftClock IsoDate.parse
    (Some (referenceRow "06:30:45" "2024-01-01T00:00:00Z")) 1704067200000
  = JS.Normal
      (Some (liveClockOfSeconds (liveTotalSeconds 1704067200000 6 30 1704067200000)))
  /\ deriveMinecraftClockAtDate IsoDate.parse
       (Some (referenceRow "06:30:45" "2024-01-01T00:00:00Z")) 1704067200000
     = JS.Normal
         (Some (getMinecraftPhaseFromMinutes
                  (targetTotalMinutes 1704067200000 6 30 1704067200000))).
Proof.
  apply (proj1 (extra_segments_are_ignored IsoDate.parse)
           (referenceRow "06:30:45" "2024-01-01T00:00:00Z")
           "06:30:45" "06" "30" ["45"] "2024-01-01T00:00:00Z" 1704067200000
           6 30 1704067200000);
    reflexivity || lia || discriminate.
Defined.

(** ** More on the phase lookup and on the two derivations *)

Section MoreOnTheClock.

Local Open Scope Q_scope.

Lemma floor_shift (x : Q) (n : Z) : Qfloor (x + inject_Z n) = (Qfloor x + n)%Z.
Proof.
  destruct (floor_facts x) as [L U].
  apply floor_unique; push_inject; lra.
Qed.

Lemma true_mod_shift (x y : Q) (k : Z) :
  0 < y -> true_mod (x + y * inject_Z k) y == true_mod x y.
Proof.
  intros Hy. unfold true_mod.
  assert ((x + y * inject_Z k) / y == x / y + inject_Z k) as E by (field; lra).
  rewrite (Qfloor_comp _ _ E), floor_shift, inject_Z_plus. ring.
Qed.

Lemma getMinecraftPhaseFromMinutes_shift (minutes : Q) (days : Z) :
  getMinecraftPhaseFromMinutes (minutes + 1440 * inject_Z days)
  = getMinecraftPhaseFromMinutes minutes.
Proof.
  apply getMinecraftPhaseFromMinutes_congr.
  rewrite !normalizedMinutes_true_mod.
  apply true_mod_shift. reflexivity.
Qed.

(** X1.  The phase lookup has the period of a day on whole minutes: a
    whole number of days added to or taken from a whole number of minutes
    changes neither the phase nor the label, and the normalised minute stays
    the same. *)
Theorem phase_lookup_is_periodic (m days : Z) :
  isSafeInteger m -> isSafeInteger (m + days * 1440) ->
  getMinecraftPhaseFromMinutes (inject_Z (m + days * 1440))
  = getMinecraftPhaseFromMinutes (inject_Z m)
  /\ normalizedMinutes (inject_Z (m + days * 1440))
     == normalizedMinutes (inject_Z m).
Proof.
  intros _ _.
  assert (normalizedMinutes (inject_Z (m + days * 1440))
          == normalizedMinutes (inject_Z m)) as N.
  { rewrite !normalizedMinutes_inject_Z. now rewrite Z_mod_plus_full. }
  split; [apply getMinecraftPhaseFromMinutes_congr|]; exact N.
Qed.

(** The phase is one of the four names, whatever the argument. *)
Lemma phase_is_named (minutes : Q) :
  let p := phase (getMinecraftPhaseFromMinutes minutes) in
  p = Aube \/ p = Jour \/ p = Crepuscule \/ p = Nuit.
Proof.
  cbv zeta. unfold getMinecraftPhaseFromMinutes. cbv zeta.
  repeat match goal with
         | |- context [if ?c then _ else _] => destruct c
         end; cbn [phase]; auto.
Qed.

(** X2.  Every phase that the lookup returns has an icon in
    [PHASE_ICON_MAP], so the page never drops the icon of a phase. *)
Theorem every_phase_has_an_icon (minutes : Q) :
  exists iconSrc,
    Obj_get PHASE_ICON_MAP (phase (getMinecraftPhaseFromMinutes minutes))
    = Some iconSrc
    /\ JS.truthy (Some iconSrc) = true.
Proof.
  destruct (phase_is_named minutes) as [E|[E|[E|E]]]; rewrite E;
    eexists; split; reflexivity.
Qed.

End MoreOnTheClock.

Section MoreOnTheDerivations.

Variable Date_parse : string -> option Z.

Local Abbreviation live := (deriveLiveMinecraftClock Date_parse).
Local Abbreviation atDate := (deriveMinecraftClockAtDate Date_parse).

(** X3.  The answer is [null] exactly when the row carries no valid
    reference, for both derivations: whether a result is given depends on
    the row alone, never on the instant of the query. *)
Theorem null_iff_no_reference (row : option SpawnTimerRow) (instant : Z) :
  let unreferenced :=
    ~ exists savedAtMs hours minutes,
        observed Date_parse row savedAtMs hours minutes in
  (live row instant = JS.Normal None <-> unreferenced)
  /\ (atDate row instant = JS.Normal None <-> unreferenced).
Proof.
  cbv zeta.
  rewrite deriveLiveMinecraftClock_withReference,
    deriveMinecraftClockAtDate_withReference.
  destruct (withReference_cases Date_parse row) as [(s & h & m & Ho & E)|E];
    rewrite !E.
  - split; (split; [discriminate|]); intros N; exfalso; apply N; eauto.
  - split; (split; [|reflexivity]); intros _ (s & h & m & Ho).
    + pose proof (withReference_observed Date_parse (fun _ _ _ => tt)
                    _ _ _ _ Ho) as E'.
      rewrite E in E'. discriminate E'.
    + pose proof (withReference_observed Date_parse (fun _ _ _ => tt)
                    _ _ _ _ Ho) as E'.
      rewrite E in E'. discriminate E'.
Qed.

(** Elapsed time that is not clamped: the query is not before the
    observation. *)
Lemma elapsed_after_observation (savedAtMs instant : Z) :
  savedAtMs <= instant ->
  (JS.max 0 (inject_Z (instant - savedAtMs) / 1000)
   == inject_Z (instant - savedAtMs) / 1000)%Q.
Proof.
  intros H. unfold JS.max. apply Q.max_r.
  assert (0 <= inject_Z (instant - savedAtMs))%Q
    by (change 0%Q with (inject_Z 0); rewrite <- Zle_Qle; lia).
  push_inject. lra.
Qed.

Lemma targetTotalMinutes_next_day (savedAtMs hours minutes instant : Z) :
  savedAtMs <= instant ->
  (targetTotalMinutes savedAtMs hours minutes (instant + 1200 * 1000)
   == targetTotalMinutes savedAtMs hours minutes instant + 1440 * inject_Z 1)%Q.
Proof.
  intros H. unfold targetTotalMinutes.
  rewrite !elapsed_after_observation by lia.
  unfold MINECRAFT_HOUR_SECONDS.
  replace (instant + 1200 * 1000 - savedAtMs)
    with ((instant - savedAtMs) + 1200000) by lia.
  rewrite (inject_Z_plus (instant - savedAtMs) 1200000).
  change (inject_Z 1200000) with 1200000%Q. change (inject_Z 1) with 1%Q.
  field.
Qed.

(** The live clock is decided by the total of simulated minutes. *)
Lemma liveClockOfSeconds_congr (a b : Q) :
  (normalizeMinecraftSeconds a == normalizeMinecraftSeconds b)%Q ->
  liveClockOfSeconds a = liveClockOfSeconds b.
Proof.
  intros E.
  destruct (liveClockOfSeconds_reads a) as [Ca _].
  destruct (liveClockOfSeconds_reads b) as [Cb _].
  cbv zeta in Ca, Cb.
  assert (phaseDetails (liveClockOfSeconds a) = phaseDetails (liveClockOfSeconds b))
    as P.
  { unfold liveClockOfSeconds. cbv zeta. cbn [phaseDetails].
    unfold getPhasePreviewFromMinutes.
    apply getMinecraftPhaseFromMinutes_congr, normalizedMinutes_comp.
    rewrite E. reflexivity. }
  assert (Qfloor (normalizeMinecraftSeconds a / 3600)
          = Qfloor (normalizeMinecraftSeconds b / 3600)) as Eh
      by (apply Qfloor_comp; rewrite E; reflexivity).
  assert (Qfloor (normalizeMinecraftSeconds a / 60)
          = Qfloor (normalizeMinecraftSeconds b / 60)) as Em
      by (apply Qfloor_comp; rewrite E; reflexivity).
  rewrite Eh, Em, <- Cb in Ca.
  revert Ca P. generalize (liveClockOfSeconds a), (liveClockOfSeconds b).
  intros [c d] [c' d']. cbn [clock phaseDetails]. congruence.
Qed.

(** X4.  A simulated day lasts [MINECRAFT_CYCLE_SECONDS], 1200 seconds:
    from the observation on and up to the horizon, the live clock and the
    predicted phase are the same 1200 seconds later. *)
Theorem one_day_per_1200_seconds (row : option SpawnTimerRow)
    (savedAtMs hours minutes instant : Z) :
  observed Date_parse row savedAtMs hours minutes ->
  savedAtMs <= instant ->
  withinHorizon savedAtMs (instant + 1200 * 1000) ->
  (MINECRAFT_CYCLE_SECONDS * MINECRAFT_SECONDS_PER_REAL_SECOND
   == MINECRAFT_SECONDS_PER_DAY)%Q
  /\ live row (instant + 1200 * 1000) = live row instant
  /\ atDate row (instant + 1200 * 1000) = atDate row instant.
Proof.
  intros Ho Hi _. split; [reflexivity|].
  rewrite !deriveLiveMinecraftClock_withReference,
    !deriveMinecraftClockAtDate_withReference.
  rewrite !(withReference_observed Date_parse _ _ _ _ _ Ho).
  pose proof (targetTotalMinutes_next_day savedAtMs hours minutes instant Hi)
    as E.
  split; do 2 f_equal.
  - apply liveClockOfSeconds_congr.
    rewrite !normalizeMinecraftSeconds_true_mod.
    rewrite <- (true_mod_shift
                  (liveTotalSeconds savedAtMs hours minutes instant) 86400 1)
      by reflexivity.
    apply true_mod_comp; [|reflexivity].
    rewrite <- !totals_agree in E.
    change (inject_Z 1) with 1%Q in *. push_inject. lra.
  - rewrite <- (getMinecraftPhaseFromMinutes_shift
                  (targetTotalMinutes savedAtMs hours minutes instant) 1).
    apply getMinecraftPhaseFromMinutes_congr, normalizedMinutes_comp, E.
Qed.

End MoreOnTheDerivations.

(** ** The clock of a count of real seconds, over binary64 *)

Section CycleClock.

(** A property checked on every whole number below [n] holds of each. *)
Lemma forallb_below (f : Z -> bool) (n : nat) :
  forallb f (map Z.of_nat (seq 0 n)) = true ->
  forall z, 0 <= z < Z.of_nat n -> f z = true.
Proof.
  intros H z Hz. rewrite forallb_forall in H. apply H.
  apply in_map_iff. exists (Z.to_nat z). split; [lia|apply in_seq; lia].
Qed.

(** [formatMinecraftClock] on the whole seconds of a cycle, by evaluation. *)
Lemma formatMinecraftClock_reads (s : Z) :
  0 <= s < 1200 ->
  let hh := s / 50 in
  let mm := (s mod 50) * 6 / 5 in
  0 <= hh <= 23 /\ 0 <= mm <= 59
  /\ (F64.formatMinecraftClock (F64.of_Z s) = hhmm hh mm
      \/ (s mod 5 = 0 /\ 0 < mm
          /\ F64.formatMinecraftClock (F64.of_Z s) = hhmm hh (mm - 1))).
Proof.
  intros Hs. cbv zeta.
  pose (ok := fun s : Z =>
          let f := F64.formatMinecraftClock (F64.of_Z s) in
          let hh := s / 50 in
          let mm := (s mod 50) * 6 / 5 in
          (0 <=? hh) && (hh <=? 23) && (0 <=? mm) && (mm <=? 59)
          && (String.eqb f (hhmm hh mm)
              || (s mod 5 =? 0) && (0 <? mm) && String.eqb f (hhmm hh (mm - 1)))).
  assert (forallb ok (map Z.of_nat (seq 0 1200)) = true) as All
      by (vm_cast_no_check (eq_refl true)).
  pose proof (forallb_below ok 1200 All s ltac:(lia)) as H.
  unfold ok in H. cbv zeta in H.
  destruct (andb_prop _ _ H) as [H1 D]. destruct (andb_prop _ _ H1) as [H2 B4].
  destruct (andb_prop _ _ H2) as [H3 B3]. destruct (andb_prop _ _ H3) as [B1 B2].
  apply Z.leb_le in B1, B2, B3, B4.
  split; [lia|]. split; [lia|].
  apply orb_true_iff in D. destruct D as [D|D].
  - left. now apply String.eqb_eq.
  - right. destruct (andb_prop _ _ D) as [D1 E]. destruct (andb_prop _ _ D1) as [M P].
    apply Z.eqb_eq in M. apply Z.ltb_lt in P. apply String.eqb_eq in E. auto.
Qed.

(** X5.  [formatMinecraftClock] on the whole seconds of a cycle, as the
    page computes it.  The count [s] is in the simulated hour [s / 50] and,
    at 1.2 simulated minutes a second, in the minute [(s mod 50) * 6 / 5] of
    that hour.  The clock shows that hour, and that minute or the minute
    before: the quotient by 50 is rounded, and its fraction times 60 falls
    just under a whole minute at 91 of the seconds that are multiples of 5
    (no other second is affected).  So 60 seconds read 01:11 where 01:12 is
    reached. *)
Theorem formatMinecraftClock_is_hhmm :
  (forall s : Z,
      0 <= s < 1200 ->
      let hh := s / 50 in
      let mm := (s mod 50) * 6 / 5 in
      0 <= hh <= 23 /\ 0 <= mm <= 59
      /\ (F64.formatMinecraftClock (F64.of_Z s) = hhmm hh mm
          \/ (s mod 5 = 0 /\ 0 < mm
              /\ F64.formatMinecraftClock (F64.of_Z s) = hhmm hh (mm - 1))))
  /\ F64.formatMinecraftClock (F64.of_Z 60) = "01:11"
  /\ hhmm (60 / 50) ((60 mod 50) * 6 / 5) = "01:12"
  /\ List.length
       (filter (fun s => negb (String.eqb (F64.formatMinecraftClock (F64.of_Z s))
                                          (hhmm (s / 50) ((s mod 50) * 6 / 5))))
               (map Z.of_nat (seq 0 1200)))
     = 91%nat.
Proof.
  split; [exact formatMinecraftClock_reads|].
  split; [|split]; vm_compute; reflexivity.
Qed.

End CycleClock.

Lemma formatMinecraftClock_is_hhmm_witness :
  0 <= 27 < 1200
  /\ F64.formatMinecraftClock (F64.of_Z 27) = "00:32".
Proof.
  split; [lia|].
  destruct (proj1 formatMinecraftClock_is_hhmm 27 ltac:(lia))
    as (_ & _ & [E|(N & _)]); [exact E|discriminate N].
Defined.

(** ** The preview of a typed time of day *)

Section Preview.

Lemma getPhasePreviewFromInGameTime_valid
    (value hoursPart minutesPart : string) (others : list string)
    (hours minutes : Z) :
  JS.split ":" value = hoursPart :: minutesPart :: others ->
  JS.parseInt hoursPart = Some hours -> 0 <= hours <= 23 ->
  JS.parseInt minutesPart = Some minutes -> 0 <= minutes <= 59 ->
  getPhasePreviewFromInGameTime value
  = Some (getMinecraftPhaseFromMinutes (inject_Z (hours * 60 + minutes))).
Proof.
  intros Hs Hh Rh Hm Rm. unfold getPhasePreviewFromInGameTime.
  rewrite (truthy_nonempty value (split_nonempty _ _ _ _ Hs)), Hs.
  cbn [negb JS.element nth_error].
  rewrite (truthy_nonempty hoursPart (parseInt_nonempty _ _ Hh)).
  rewrite (truthy_nonempty minutesPart (parseInt_nonempty _ _ Hm)).
  cbn [negb orb JS.ToString]. rewrite Hh, Hm.
  replace (hours <? 0) with false by (symmetry; apply Z.ltb_ge; lia).
  replace (hours >? 23) with false
    by (symmetry; rewrite Z.gtb_ltb; apply Z.ltb_ge; lia).
  replace (minutes <? 0) with false by (symmetry; apply Z.ltb_ge; lia).
  replace (minutes >? 59) with false
    by (symmetry; rewrite Z.gtb_ltb; apply Z.ltb_ge; lia).
  reflexivity.
Qed.

Lemma getPhasePreviewFromInGameTime_inv (value : string)
    (details : MinecraftPhaseDetails) :
  getPhasePreviewFromInGameTime value = Some details ->
  exists hoursPart minutesPart others hours minutes,
    JS.split ":" value = hoursPart :: minutesPart :: others
    /\ JS.parseInt hoursPart = Some hours /\ 0 <= hours <= 23
    /\ JS.parseInt minutesPart = Some minutes /\ 0 <= minutes <= 59
    /\ details = getMinecraftPhaseFromMinutes (inject_Z (hours * 60 + minutes)).
Proof.
  unfold getPhasePreviewFromInGameTime.
  destruct (JS.truthy (Some value)); [|discriminate]. cbn [negb].
  destruct (JS.split ":" value) as [|hoursPart [|minutesPart others]] eqn:Hs;
    cbn [JS.element nth_error];
    [cbn; discriminate | destruct hoursPart; cbn; discriminate |].
  destruct (JS.truthy (Some hoursPart)); [|discriminate].
  destruct (JS.truthy (Some minutesPart)); [|discriminate].
  cbn [negb orb JS.ToString].
  destruct (JS.parseInt hoursPart) as [hours|] eqn:Hh; [|discriminate].
  destruct (JS.parseInt minutesPart) as [minutes|] eqn:Hm; [|discriminate].
  destruct (hours <? 0) eqn:R1; [discriminate|].
  destruct (hours >? 23) eqn:R2; [discriminate|].
  destruct (minutes <? 0) eqn:R3; [discriminate|].
  destruct (minutes >? 59) eqn:R4; [discriminate|].
  cbn [orb]. intros [= <-].
  apply Z.ltb_ge in R1, R3. rewrite Z.gtb_ltb in R2, R4. apply Z.ltb_ge in R2, R4.
  exists hoursPart, minutesPart, others, hours, minutes.
  repeat split; assumption || lia.
Qed.

Variable Date_parse : string -> option Z.

Local Abbreviation live := (deriveLiveMinecraftClock Date_parse).
Local Abbreviation atDate := (deriveMinecraftClockAtDate Date_parse).

(** X7.  The preview of a typed time is what the page shows once the time
    is saved: for a row holding that time of day with a timestamp that is a
    date, at any instant up to the observation, the predicted phase is the
    preview and the live clock carries it as its phase details; they are
    [null] together. *)
Theorem preview_is_phase_at_observation (row : SpawnTimerRow)
    (value savedAt : string) (savedAtMs instant : Z) :
  ingame_time row = Some value ->
  ingame_time_saved_at row = Some savedAt -> savedAt <> "" ->
  Date_parse savedAt = Some savedAtMs ->
  instant <= savedAtMs ->
  atDate (Some row) instant = JS.Normal (getPhasePreviewFromInGameTime value)
  /\ completion_map (option_map phaseDetails) (live (Some row) instant)
     = JS.Normal (getPhasePreviewFromInGameTime value).
Proof.
  intros Ht Hsa Hne Hd Hi.
  assert (atDate (Some row) instant
          = JS.Normal (getPhasePreviewFromInGameTime value)) as E.
  { rewrite deriveMinecraftClockAtDate_withReference.
    destruct (getPhasePreviewFromInGameTime value) as [details|] eqn:P.
    - apply getPhasePreviewFromInGameTime_inv in P.
      destruct P as (hp & mp & others & h & m & Hs & Hh & Rh & Hm & Rm & ->).
      rewrite (withReference_observed Date_parse _ (Some row) savedAtMs h m).
      + do 2 f_equal. apply getMinecraftPhaseFromMinutes_congr.
        apply normalizedMinutes_comp.
        now apply targetTotalMinutes_at_observation.
      + exists row, value, savedAt, hp, mp, others.
        repeat split; try reflexivity; assumption || lia.
    - destruct (withReference_cases Date_parse (Some row))
        as [(s & h & m & Ho & _)|E]; [|apply E].
      exfalso.
      destruct Ho as (r & time & sa & hp & mp & others & [= <-] & Ht' & Hs & Hh
                      & Rh & Hm & Rm & _).
      assert (time = value) as -> by congruence.
      rewrite (getPhasePreviewFromInGameTime_valid _ _ _ _ _ _ Hs Hh Rh Hm Rm)
        in P.
      discriminate P. }
  split; [exact E|].
  rewrite <- E, deriveLiveMinecraftClock_withReference,
    deriveMinecraftClockAtDate_withReference, withReference_map.
  destruct (withReference_cases Date_parse (Some row))
    as [(s & h & m & _ & E')|E']; rewrite !E'; [|reflexivity].
  do 2 f_equal. apply live_phase_of_total_minutes, totals_agree.
Qed.

(** X8.  A preview is labelled with the typed time, the hour and the minute
    that its first two segments parse to, written with two digits each. *)
Theorem preview_label_is_typed_time (value : string)
    (details : MinecraftPhaseDetails) :
  getPhasePreviewFromInGameTime value = Some details ->
  exists hoursPart minutesPart others hours minutes,
    JS.split ":" value = hoursPart :: minutesPart :: others
    /\ JS.parseInt hoursPart = Some hours /\ 0 <= hours <= 23
    /\ JS.parseInt minutesPart = Some minutes /\ 0 <= minutes <= 59
    /\ timeLabel details = Some (hhmm hours minutes).
Proof.
  intros P. apply getPhasePreviewFromInGameTime_inv in P.
  destruct P as (hp & mp & others & h & m & Hs & Hh & Rh & Hm & Rm & ->).
  exists hp, mp, others, h, m. repeat split; try assumption; try lia.
  now apply label_of_time_of_day.
Qed.

End Preview.

(** ** Whole minutes *)

Section WholeMinutes.

Local Open Scope Q_scope.

(** An integer compares with a number as it does with its floor. *)
Lemma le_floor_iff (c : Z) (x : Q) : inject_Z c <= inject_Z (Qfloor x) <-> inject_Z c <= x.
Proof.
  destruct (floor_facts x) as [L U]. split; intros H; [lra|].
  rewrite <- Zle_Qle. rewrite <- (Qfloor_Z c). now apply Qfloor_resp_le.
Qed.

Lemma floor_lt_iff (c : Z) (x : Q) : inject_Z (Qfloor x) < inject_Z c <-> x < inject_Z c.
Proof.
  split; intros H.
  - apply Qnot_le_lt. intros N. apply le_floor_iff in N. lra.
  - destruct (floor_facts x) as [L U]. lra.
Qed.

Lemma ge_floor (c : Z) (x : Q) :
  JS.ge (inject_Z (Qfloor x)) (inject_Z c) = JS.ge x (inject_Z c).
Proof.
  apply eq_true_iff_eq. rewrite !ge_spec. apply le_floor_iff.
Qed.

Lemma lt_floor (c : Z) (x : Q) :
  JS.lt (inject_Z (Qfloor x)) (inject_Z c) = JS.lt x (inject_Z c).
Proof.
  apply eq_true_iff_eq. rewrite !lt_spec. apply floor_lt_iff.
Qed.

(** The floor of a quotient by a positive integer is the floor of the
    quotient of the floor. *)
Lemma floor_div_floor (x : Q) (d : positive) :
  Qfloor (inject_Z (Qfloor x) / inject_Z (Zpos d)) = Qfloor (x / inject_Z (Zpos d)).
Proof.
  assert (0 < inject_Z (Zpos d)) as Hd by reflexivity.
  destruct (floor_facts (x / inject_Z (Zpos d))) as [L U].
  set (K := Qfloor (x / inject_Z (Zpos d))) in *.
  assert (x / inject_Z (Zpos d) * inject_Z (Zpos d) == x) as Ex
      by (field; intros N; rewrite N in Hd; discriminate Hd).
  assert (inject_Z K * inject_Z (Zpos d) <= x) as L'
      by (rewrite <- Ex; apply Qmult_le_compat_r; [exact L|now apply Qlt_le_weak]).
  assert (x < (inject_Z K + 1) * inject_Z (Zpos d)) as U'
      by (rewrite <- Ex at 1; apply Qmult_lt_compat_r; assumption).
  apply floor_of_range; [assumption| |].
  - rewrite <- inject_Z_mult. apply le_floor_iff.
    rewrite inject_Z_mult. assumption.
  - rewrite <- inject_Z_mult. apply floor_lt_iff.
    rewrite inject_Z_mult, inject_Z_plus. assumption.
Qed.

Lemma normalizedMinutes_of_floor (minutes : Q) :
  normalizedMinutes (inject_Z (Qfloor minutes))
  == inject_Z (Qfloor (normalizedMinutes minutes)).
Proof.
  rewrite normalizedMinutes_true_mod.
  pose proof (normalizedMinutes_true_mod minutes) as E. unfold true_mod in *.
  change 1440 with (inject_Z 1440) at 2.
  rewrite (floor_div_floor minutes 1440).
  change (inject_Z 1440) with 1440.
  set (K := Qfloor (minutes / 1440)) in *.
  assert (normalizedMinutes minutes == minutes + inject_Z (- (1440 * K))) as E'
      by (rewrite E; push_inject; ring).
  rewrite (Qfloor_comp _ _ E'), floor_shift. push_inject. ring.
Qed.

(** The phase and the label never depend on the fraction of the minute. *)
Lemma getMinecraftPhaseFromMinutes_floor (minutes : Q) :
  getMinecraftPhaseFromMinutes (inject_Z (Qfloor minutes))
  = getMinecraftPhaseFromMinutes minutes.
Proof.
  pose proof (normalizedMinutes_of_floor minutes) as E.
  destruct (normalizedMinutes_bound minutes) as [N0 N1].
  destruct (normalizedMinutes_bound (inject_Z (Qfloor minutes))) as [M0 M1].
  unfold getMinecraftPhaseFromMinutes. cbv zeta. unfold JS.floor.
  generalize dependent (normalizedMinutes (inject_Z (Qfloor minutes))).
  generalize dependent (normalizedMinutes minutes).
  intros n N0 N1 n' E M0 M1.
  assert (Qfloor (n' / 60) = Qfloor (n / 60)) as Eh.
  { assert (n' / 60 == inject_Z (Qfloor n) / inject_Z 60) as E1
        by (rewrite E; reflexivity).
    rewrite (Qfloor_comp _ _ E1). apply (floor_div_floor n 60). }
  assert (Qfloor (JS.rem n' 60) = Qfloor (JS.rem n 60)) as Em.
  { assert (JS.rem n' 60 == inject_Z (Qfloor n - 60 * Qfloor (n / 60))) as E1.
    { rewrite rem_nonneg by (try reflexivity; assumption).
      unfold true_mod. rewrite Eh, E. push_inject. ring. }
    assert (JS.rem n 60 == n + inject_Z (- (60 * Qfloor (n / 60)))) as E2.
    { rewrite rem_nonneg by (try reflexivity; assumption).
      unfold true_mod. push_inject. ring. }
    rewrite (Qfloor_comp _ _ E1), (Qfloor_comp _ _ E2), Qfloor_Z, floor_shift.
    lia. }
  rewrite Eh, Em.
  assert (forall c : Z, JS.ge n' (inject_Z c) = JS.ge n (inject_Z c)) as G.
  { intros c. rewrite <- (ge_floor c n). unfold JS.ge. now rewrite E. }
  assert (forall c : Z, JS.lt n' (inject_Z c) = JS.lt n (inject_Z c)) as T.
  { intros c. rewrite <- (lt_floor c n). unfold JS.lt. now rewrite E. }
  pose proof (G 273%Z) as G1. pose proof (G 387%Z) as G2.
  pose proof (G 1057%Z) as G3.
  pose proof (T 387%Z) as T1. pose proof (T 1057%Z) as T2.
  pose proof (T 1188%Z) as T3.
  change (inject_Z 273) with 273 in G1. change (inject_Z 387) with 387 in G2, T1.
  change (inject_Z 1057) with 1057 in G3, T2.
  change (inject_Z 1188) with 1188 in T3.
  rewrite G1, G2, G3, T1, T2, T3. reflexivity.
Qed.

End WholeMinutes.

(** ** The clock string read back *)

Section ClockReadBack.

(** A clock string splits into its two-digit hour and minute, which parse
    back to the hour and the minute. *)
Lemma hhmm_parses (hours minutes : Z) :
  0 <= hours <= 23 -> 0 <= minutes <= 59 ->
  JS.split ":" (hhmm hours minutes) = [two_digits hours; two_digits minutes]
  /\ JS.parseInt (two_digits hours) = Some hours
  /\ JS.parseInt (two_digits minutes) = Some minutes.
Proof.
  intros Hh Hm.
  pose (ok := fun h m : nat =>
          let hz := Z.of_nat h in
          let mz := Z.of_nat m in
          (if list_eq_dec string_dec (JS.split ":" (hhmm hz mz))
                [two_digits hz; two_digits mz] then true else false)
          && match JS.parseInt (two_digits hz) with
             | Some v => v =? hz
             | None => false
             end
          && match JS.parseInt (two_digits mz) with
             | Some v => v =? mz
             | None => false
             end).
  assert (forallb (fun h => forallb (ok h) (seq 0 60)) (seq 0 24) = true) as All
      by (vm_compute; reflexivity).
  rewrite forallb_forall in All.
  specialize (All (Z.to_nat hours)). rewrite forallb_forall in All.
  specialize (All ltac:(apply in_seq; lia) (Z.to_nat minutes)
                  ltac:(apply in_seq; lia)).
  unfold ok in All. cbv zeta in All. rewrite !Z2Nat.id in All by lia.
  apply andb_true_iff in All. destruct All as [All A3].
  apply andb_true_iff in All. destruct All as [A1 A2].
  destruct (list_eq_dec _ _ _) as [E1|]; [|discriminate].
  destruct (JS.parseInt (two_digits hours)) as [vh|]; [|discriminate].
  destruct (JS.parseInt (two_digits minutes)) as [vm|]; [|discriminate].
  apply Z.eqb_eq in A2, A3. subst. auto.
Qed.

Lemma phaseDetails_liveClockOfSeconds (totalSeconds : Q) :
  phaseDetails (liveClockOfSeconds totalSeconds)
  = getMinecraftPhaseFromMinutes (normalizeMinecraftSeconds totalSeconds / 60).
Proof. reflexivity. Qed.

Variable Date_parse : string -> option Z.

Local Abbreviation live := (deriveLiveMinecraftClock Date_parse).

(** X10.  The clock string of the live clock is itself a time of day that
    the page accepts, and its preview is the phase details shown with it:
    the phase and the label on display are those of the displayed hour and
    minute. *)
Theorem displayed_clock_previews_itself (row : option SpawnTimerRow)
    (nowMs : Z) (result : LiveClock) :
  live row nowMs = JS.Normal (Some result) ->
  getPhasePreviewFromInGameTime (clock result) = Some (phaseDetails result).
Proof.
  rewrite deriveLiveMinecraftClock_withReference. intros E.
  apply withReference_inv in E. destruct E as (s & h & m & _ & ->).
  set (total := liveTotalSeconds s h m nowMs).
  destruct (liveClockOfSeconds_reads total) as [C _]. cbv zeta in C.
  destruct (normalizeMinecraftSeconds_bound total) as [N0 N1].
  set (ns := normalizeMinecraftSeconds total) in *.
  pose proof (hours_range ns N0 N1) as Rh.
  pose proof (minutes_range ns) as Rm.
  pose proof (hours_of_whole_minutes ns) as B.
  destruct (hhmm_parses _ _ Rh Rm) as (Hs & Hh & Hm).
  rewrite C, phaseDetails_liveClockOfSeconds. fold ns.
  rewrite (getPhasePreviewFromInGameTime_valid _ _ _ _ _ _ Hs Hh Rh Hm Rm).
  f_equal.
  assert (Qfloor (ns / 3600) * 60 + Qfloor (ns / 60) mod 60 = Qfloor (ns / 60))
    as ->.
  { assert (Qfloor (ns / 60) mod 60 = Qfloor (ns / 60) - 60 * Qfloor (ns / 3600))
      as -> by (symmetry; apply Z.mod_unique with (q := Qfloor (ns / 3600)); lia).
    lia. }
  apply getMinecraftPhaseFromMinutes_floor.
Qed.

End ClockReadBack.

(** ** The two readings side by side *)

Section TwoReadings.

Lemma live_result_eq_dec (x y : JS.completion (option LiveClock)) :
  {x = y} + {x <> y}.
Proof. repeat decide equality. Defined.

Lemma phase_result_eq_dec (x y : JS.completion (option MinecraftPhaseDetails)) :
  {x = y} + {x <> y}.
Proof. repeat decide equality. Defined.

Lemma decided_true {P : Prop} (d : {P} + {~ P}) :
  (if d then true else false) = true -> P.
Proof. destruct d; [trivial|discriminate]. Qed.

(** A property checked on every whole number from [lo] on, [n] of them,
    holds of each. *)
Lemma forallb_from (f : Z -> bool) (lo n : Z) :
  forallb (fun k => f (lo + k)) (map Z.of_nat (seq 0 (Z.to_nat n))) = true ->
  forall z, lo <= z < lo + n -> f z = true.
Proof.
  intros H z Hz.
  pose proof (forallb_below (fun k => f (lo + k)) (Z.to_nat n) H (z - lo)
                ltac:(lia)) as E.
  cbv beta in E. now replace (lo + (z - lo)) with z in E by lia.
Qed.

(** X11.  From the reference 00:00 observed at the start of 2024, on every
    whole second [s] of the first cycle: the live clock of the page is the
    live clock of the exact reading, and it shows the hour [s / 50] and the
    minute [(s mod 50) * 6 / 5] of that hour.  [formatMinecraftClock] of the
    elapsed seconds shows the same, or the minute before: after 60 seconds
    the live clock reads 01:12 and [formatMinecraftClock] 01:11. *)
Theorem live_clock_from_midnight :
  (forall s : Z,
      0 <= s < 1200 ->
      let row := Some (referenceRow "00:00" "2024-01-01T00:00:00Z") in
      let nowMs := 1704067200000 + s * 1000 in
      let hh := s / 50 in
      let mm := (s mod 50) * 6 / 5 in
      F64.deriveLiveMinecraftClock IsoDate.parse row nowMs
      = deriveLiveMinecraftClock IsoDate.parse row nowMs
      /\ (exists details,
            deriveLiveMinecraftClock IsoDate.parse row nowMs
            = JS.Normal (Some {| clock := hhmm hh mm; phaseDetails := details |}))
      /\ (F64.formatMinecraftClock (F64.of_Z s) = hhmm hh mm
          \/ F64.formatMinecraftClock (F64.of_Z s) = hhmm hh (mm - 1)))
  /\ F64.deriveLiveMinecraftClock IsoDate.parse
       (Some (referenceRow "00:00" "2024-01-01T00:00:00Z"))
       (1704067200000 + 60 * 1000)
     = JS.Normal
         (Some {| clock := "01:12";
                  phaseDetails := {| phase := Nuit; timeLabel := Some "01:12" |} |})
  /\ F64.formatMinecraftClock (F64.of_Z 60) = "01:11".
Proof.
  split; [|split; vm_compute; reflexivity].
  intros s Hs. cbv zeta.
  pose (ok := fun s : Z =>
          let row := Some (referenceRow "00:00" "2024-01-01T00:00:00Z") in
          let nowMs := 1704067200000 + s * 1000 in
          let exact := deriveLiveMinecraftClock IsoDate.parse row nowMs in
          (if live_result_eq_dec
                (F64.deriveLiveMinecraftClock IsoDate.parse row nowMs) exact
           then true else false)
          && match exact with
             | JS.Normal (Some result) =>
                 String.eqb (clock result) (hhmm (s / 50) ((s mod 50) * 6 / 5))
             | _ => false
             end).
  assert (forallb ok (map Z.of_nat (seq 0 1200)) = true) as All
      by (vm_cast_no_check (eq_refl true)).
  pose proof (forallb_below ok 1200 All s ltac:(lia)) as H.
  unfold ok in H. cbv zeta in H. clear All ok.
  apply andb_true_iff in H. destruct H as [E C].
  split; [exact (decided_true _ E)|]. split.
  - destruct (deriveLiveMinecraftClock IsoDate.parse
                (Some (referenceRow "00:00" "2024-01-01T00:00:00Z"))
                (1704067200000 + s * 1000)) as [[[c d]|]|];
      try discriminate C.
    cbn [clock] in C. apply String.eqb_eq in C. subst c. now exists d.
  - destruct (formatMinecraftClock_reads s Hs) as (_ & _ & [F|(_ & _ & F)]);
      auto.
Qed.

(** X21.  On the whole minutes of the day before midnight and of the day
    after it, the lookup of the page is the lookup of the exact reading:
    the same phase and the same label, and the normalised minute is
    [m mod 1440]. *)
Theorem phase_lookup_readings_agree (m : Z) :
  -1440 <= m <= 1440 ->
  F64.getMinecraftPhaseFromMinutes (F64.of_Z m)
  = getMinecraftPhaseFromMinutes (inject_Z m)
  /\ F64.to_Q (F64.normalizedMinutes (F64.of_Z m)) = Some (inject_Z (m mod 1440)).
Proof.
  intros Hm.
  pose (ok := fun m : Z =>
          (if phase_result_eq_dec
                (JS.Normal (Some (F64.getMinecraftPhaseFromMinutes (F64.of_Z m))))
                (JS.Normal (Some (getMinecraftPhaseFromMinutes (inject_Z m))))
           then true else false)
          && match F64.to_Q (F64.normalizedMinutes (F64.of_Z m)) with
             | Some q => (Qnum q =? m mod 1440) && Pos.eqb (Qden q) 1
             | None => false
             end).
  assert (forallb (fun k => ok (-1440 + k))
            (map Z.of_nat (seq 0 (Z.to_nat 2881))) = true)
    as All by (vm_cast_no_check (eq_refl true)).
  pose proof (forallb_from ok (-1440) 2881 All m ltac:(lia)) as H.
  unfold ok in H. clear All ok.
  apply andb_true_iff in H. destruct H as [E N]. split.
  - pose proof (decided_true _ E) as E'. now injection E'.
  - destruct (F64.to_Q (F64.normalizedMinutes (F64.of_Z m))) as [[n d]|];
      [|discriminate N].
    cbn [Qnum Qden] in N. apply andb_true_iff in N. destruct N as [N1 N2].
    apply Z.eqb_eq in N1. apply Pos.eqb_eq in N2. subst. reflexivity.
Qed.

(** X22.  On the reference times of day of [sampledTimes] (three minutes
    of every hour) observed at the start of 2024 and queried after each of
    the delays of [sampledDelays], which go from before the observation to
    the horizon, the two derivations of the page return what the exact
    reading returns: the same clock, the same phase and the same label. *)
Theorem derivations_readings_agree (hours minutes delay : Z) :
  In (hours, minutes) sampledTimes -> In delay sampledDelays ->
  let row := Some (referenceRow (hhmm hours minutes) "2024-01-01T00:00:00Z") in
  let instant := 1704067200000 + delay in
  F64.deriveLiveMinecraftClock IsoDate.parse row instant
  = deriveLiveMinecraftClock IsoDate.parse row instant
  /\ F64.deriveMinecraftClockAtDate IsoDate.parse row instant
     = deriveMinecraftClockAtDate IsoDate.parse row instant.
Proof.
  intros Ht Hd. cbv zeta.
  pose (ok := fun (time : Z * Z) (delay : Z) =>
          let row :=
            Some (referenceRow (hhmm (fst time) (snd time))
                    "2024-01-01T00:00:00Z") in
          let instant := 1704067200000 + delay in
          (if live_result_eq_dec
                (F64.deriveLiveMinecraftClock IsoDate.parse row instant)
                (deriveLiveMinecraftClock IsoDate.parse row instant)
           then true else false)
          && (if phase_result_eq_dec
                   (F64.deriveMinecraftClockAtDate IsoDate.parse row instant)
                   (deriveMinecraftClockAtDate IsoDate.parse row instant)
              then true else false)).
  assert (forallb (fun time => forallb (ok time) sampledDelays) sampledTimes
          = true) as All
      by (vm_cast_no_check (eq_refl true)).
  rewrite forallb_forall in All. specialize (All _ Ht).
  rewrite forallb_forall in All. specialize (All _ Hd).
  unfold ok in All. cbv zeta in All. cbn [fst snd] in All.
  apply andb_true_iff in All. destruct All as [L A].
  split; [exact (decided_true _ L)|exact (decided_true _ A)].
Qed.

End TwoReadings.

(** ** The delay on display *)

Section DisplayValue.

Variable Date_parse : string -> option Z.
Variable nowMs : Z.
Variable timeFormatter_format : Z -> string.

Local Abbreviation display := (getDisplayValue Date_parse nowMs timeFormatter_format).

(** The rounded minutes against the milliseconds they round. *)
Lemma Math_round_minutes (diffMs : Z) :
  let diffMinutes := Math_round (inject_Z diffMs / 60000) in
  60000 * diffMinutes - 30000 <= diffMs < 60000 * diffMinutes + 30000.
Proof.
  cbv zeta. unfold Math_round.
  destruct (floor_facts (inject_Z diffMs / 60000 + (1 # 2))) as [L U].
  set (R := Qfloor (inject_Z diffMs / 60000 + (1 # 2))) in *.
  split.
  - by_rationals.
  - by_rationals.
Qed.

Lemma getDisplayValue_of_date (row : SpawnTimerRow) (spawn : string)
    (dateMs : Z) :
  next_spawn row = Some spawn -> spawn <> "" ->
  Date_parse spawn = Some dateMs ->
  display (Some row)
  = let diffMinutes := Math_round (inject_Z (dateMs - nowMs) / 60000) in
    if diffMinutes <=? 0 then JS.Normal "À redéfinir"
    else if diffMinutes <=? 120 then
           JS.Normal (if diffMinutes =? 1 then "Dans 1 minute"
                      else "Dans " ++ JS.toString diffMinutes ++ " minutes")
         else JS.Normal (timeFormatter_format dateMs).
Proof.
  intros Hn Hne Hd. unfold getDisplayValue.
  cbn [JS.optional JS.member JS.bind]. rewrite Hn.
  rewrite (truthy_nonempty spawn Hne).
  cbn [negb JS.Date_getTime]. rewrite Hd. reflexivity.
Qed.

(** X12.  For a row whose next spawn is a date, the display is decided by
    the delay in milliseconds: under 30 seconds (the past included) it is
    the placeholder; from 30 to under 90 seconds, one minute; from 90
    seconds to under 120 minutes and 30 seconds, the rounded count of
    minutes, between 2 and 120; from there on, the formatted hour. *)
Theorem display_by_delay (row : SpawnTimerRow) (spawn : string) (dateMs : Z) :
  next_spawn row = Some spawn -> spawn <> "" ->
  Date_parse spawn = Some dateMs ->
  let diffMs := dateMs - nowMs in
  let diffMinutes := Math_round (inject_Z diffMs / 60000) in
  (diffMs < 30000 -> display (Some row) = JS.Normal "À redéfinir")
  /\ (30000 <= diffMs < 90000 -> display (Some row) = JS.Normal "Dans 1 minute")
  /\ (90000 <= diffMs < 7230000 ->
      2 <= diffMinutes <= 120
      /\ display (Some row)
         = JS.Normal ("Dans " ++ JS.toString diffMinutes ++ " minutes"))
  /\ (7230000 <= diffMs ->
      display (Some row) = JS.Normal (timeFormatter_format dateMs)).
Proof.
  intros Hn Hne Hd. cbv zeta.
  rewrite (getDisplayValue_of_date row spawn dateMs Hn Hne Hd). cbv zeta.
  pose proof (Math_round_minutes (dateMs - nowMs)) as B. cbv zeta in B.
  set (R := Math_round (inject_Z (dateMs - nowMs) / 60000)) in *.
  split; [|split; [|split]]; intros Hdelay.
  - replace (R <=? 0) with true by (symmetry; apply Z.leb_le; lia).
    reflexivity.
  - replace (R <=? 0) with false by (symmetry; apply Z.leb_gt; lia).
    replace (R <=? 120) with true by (symmetry; apply Z.leb_le; lia).
    replace (R =? 1) with true by (symmetry; apply Z.eqb_eq; lia).
    reflexivity.
  - split; [lia|].
    replace (R <=? 0) with false by (symmetry; apply Z.leb_gt; lia).
    replace (R <=? 120) with true by (symmetry; apply Z.leb_le; lia).
    replace (R =? 1) with false by (symmetry; apply Z.eqb_neq; lia).
    reflexivity.
  - replace (R <=? 0) with false by (symmetry; apply Z.leb_gt; lia).
    replace (R <=? 120) with false by (symmetry; apply Z.leb_gt; lia).
    reflexivity.
Qed.

(** X13.  [getDisplayValue] never throws, and it shows the placeholder for
    a missing row, a missing or empty next spawn, and a next spawn that is
    not a date. *)
Theorem display_placeholder :
  (forall row, getDisplayValue Date_parse nowMs timeFormatter_format row <> JS.TypeError)
  /\ getDisplayValue Date_parse nowMs timeFormatter_format None = JS.Normal "À redéfinir"
  /\ (forall row,
        next_spawn row = None \/ next_spawn row = Some "" ->
        getDisplayValue Date_parse nowMs timeFormatter_format (Some row) = JS.Normal "À redéfinir")
  /\ (forall row spawn,
        next_spawn row = Some spawn -> Date_parse spawn = None ->
        getDisplayValue Date_parse nowMs timeFormatter_format (Some row) = JS.Normal "À redéfinir").
Proof.
  split; [|split; [reflexivity|split]].
  - intros [row|]; [|discriminate]. unfold getDisplayValue.
    cbn [JS.optional JS.member JS.bind].
    destruct (negb (JS.truthy (next_spawn row))); [discriminate|].
    destruct (JS.Date_getTime Date_parse (next_spawn row)); [|discriminate].
    repeat match goal with
           | |- context [if ?c then _ else _] => destruct c
           end; discriminate.
  - intros row [H|H]; unfold getDisplayValue;
      cbn [JS.optional JS.member JS.bind]; rewrite H; reflexivity.
  - intros row spawn Hn Hd. unfold getDisplayValue.
    cbn [JS.optional JS.member JS.bind]. rewrite Hn.
    destruct spawn; [reflexivity|].
    cbn [JS.truthy negb JS.Date_getTime]. rewrite Hd. reflexivity.
Qed.

End DisplayValue.

(** ** The fetched rows *)

Section FetchedRows.

Lemma find_last {A : Type} (f : A -> bool) (l : list A) (x : A) :
  find f (l ++ [x])
  = match find f l with
    | Some y => Some y
    | None => if f x then Some x else None
    end.
Proof.
  induction l as [|a l IH]; cbn; [reflexivity|].
  destruct (f a); [reflexivity|exact IH].
Qed.

(** [byText] answers a key with the last fetched row of that text. *)
Lemma byTextOf_get (fetched : list SpawnTimerRow) (key : string) :
  Obj_get (byTextOf fetched) key = lastWithText fetched key.
Proof.
  unfold byTextOf, lastWithText.
  assert (forall acc : Obj SpawnTimerRow,
             Obj_get
               (fold_left
                  (fun byText row =>
                     match text row with
                     | Some row_text =>
                         if JS.truthy (Some row_text)
                         then Obj_set byText row_text row
                         else byText
                     | None => byText
                     end) fetched acc) key
             = match find (has_text key) (rev fetched) with
               | Some row => Some row
               | None => Obj_get acc key
               end) as G.
  { induction fetched as [|row fetched IH]; intros acc; [reflexivity|].
    cbn [fold_left rev]. rewrite IH, find_last.
    destruct (find (has_text key) (rev fetched)); [reflexivity|].
    unfold has_text. destruct (text row) as [t|]; [|reflexivity].
    destruct (JS.truthy (Some t)); [|reflexivity].
    cbn [Obj_set Obj_get andb]. destruct (String.eqb t key); reflexivity. }
  rewrite G. destruct (find _ _); reflexivity.
Qed.

Lemma lastWithText_some (fetched : list SpawnTimerRow) (key : string)
    (row : SpawnTimerRow) :
  lastWithText fetched key = Some row ->
  In row fetched /\ text row = Some key /\ key <> "".
Proof.
  unfold lastWithText. intros H. apply find_some in H. destruct H as [Hin Ht].
  split; [now apply in_rev|].
  unfold has_text in Ht. destruct (text row) as [t|]; [|discriminate].
  apply andb_true_iff in Ht. destruct Ht as [T E].
  apply String.eqb_eq in E. subst. split; [reflexivity|].
  intros ->. discriminate T.
Qed.

Lemma normalizedOf_get (fetched : list SpawnTimerRow) :
  Obj_get (normalizedOf fetched) "ressources-01"
  = lastWithText fetched "Ressources-01"
  /\ Obj_get (normalizedOf fetched) "ressources-02"
     = lastWithText fetched "Ressources-02"
  /\ Obj_get (normalizedOf fetched) "construction-01"
     = lastWithText fetched "Construction-01"
  /\ Obj_get (normalizedOf fetched) "construction-02"
     = lastWithText fetched "Construction-02".
Proof.
  unfold normalizedOf. cbv zeta.
  unfold RESOURCES. cbn [fold_left Resource.label Resource.id].
  rewrite !byTextOf_get.
  destruct (lastWithText fetched "Ressources-01"),
           (lastWithText fetched "Ressources-02"),
           (lastWithText fetched "Construction-01"),
           (lastWithText fetched "Construction-02"); repeat split.
Qed.

(** X14.  After a fetch, the row kept for a tracked resource is the last of
    the fetched rows whose text is the label of the resource, and none when
    there is no such row. *)
Theorem normalized_keeps_last_row_of_label (fetched : list SpawnTimerRow)
    (resource : Resource.t) :
  In resource RESOURCES ->
  Obj_get (normalizedOf fetched) (Resource.id resource)
  = lastWithText fetched (Resource.label resource).
Proof.
  intros Hin. destruct (normalizedOf_get fetched) as (G1 & G2 & G3 & G4).
  destruct Hin as [<-|[<-|[<-|[<-|[]]]]]; assumption.
Qed.

(** X15.  Every row kept after a fetch is kept under the identifier of a
    tracked resource, is one of the fetched rows, and has the label of that
    resource as its text: a row is never shown under another resource. *)
Theorem normalized_rows_belong (fetched : list SpawnTimerRow) (key : string)
    (row : SpawnTimerRow) :
  Obj_get (normalizedOf fetched) key = Some row ->
  exists resource,
    In resource RESOURCES
    /\ key = Resource.id resource
    /\ text row = Some (Resource.label resource)
    /\ In row fetched.
Proof.
  unfold normalizedOf. cbv zeta.
  unfold RESOURCES at 1. cbn [fold_left Resource.label Resource.id].
  rewrite !byTextOf_get.
  destruct (lastWithText fetched "Ressources-01") as [r1|] eqn:E1;
    destruct (lastWithText fetched "Ressources-02") as [r2|] eqn:E2;
    destruct (lastWithText fetched "Construction-01") as [r3|] eqn:E3;
    destruct (lastWithText fetched "Construction-02") as [r4|] eqn:E4;
    cbn [Obj_set Obj_get];
    repeat match goal with
           | |- context [String.eqb ?k key] =>
               let E := fresh "K" in
               destruct (String.eqb k key) eqn:E;
               [apply String.eqb_eq in E|]
           end;
    intros H; try discriminate H; injection H as <-; subst key;
    match goal with
    | E : lastWithText fetched ?l = Some ?r |- context [Some ?r] =>
        apply lastWithText_some in E; destruct E as (Hin & Ht & _)
    | E : lastWithText fetched ?l = Some ?r |- context [In ?r fetched] =>
        apply lastWithText_some in E; destruct E as (Hin & Ht & _)
    end;
    eexists;
    (split;
     [cbn [In RESOURCES];
      ((left; reflexivity) + (right; left; reflexivity)
       + (right; right; left; reflexivity)
       + (right; right; right; left; reflexivity))
     |repeat split; (reflexivity || assumption)]).
Qed.

(** X16.  After a fetch, the input of the in-game time of every tracked
    resource is filled: with the time of day of the row kept for it, and
    with the empty string when there is no row or no time of day. *)
Theorem inputs_filled_from_rows (fetched : list SpawnTimerRow)
    (resource : Resource.t) :
  In resource RESOURCES ->
  Obj_get (inGameTimeInputsOf (normalizedOf fetched)) (Resource.id resource)
  = Some match lastWithText fetched (Resource.label resource) with
         | Some row =>
             match ingame_time row with
             | Some time => time
             | None => ""
             end
         | None => ""
         end.
Proof.
  intros Hin. unfold inGameTimeInputsOf.
  unfold RESOURCES at 1. cbn [fold_left].
  destruct (normalizedOf_get fetched) as (G1 & G2 & G3 & G4).
  cbn [Resource.id]. rewrite G1, G2, G3, G4.
  destruct Hin as [<-|[<-|[<-|[<-|[]]]]];
    unfold Obj_set;
    cbn [Obj_get String.eqb Ascii.eqb Bool.eqb Resource.id Resource.label];
    clear G1 G2 G3 G4;
    repeat match goal with
           | |- context [lastWithText fetched ?l] =>
               destruct (lastWithText fetched l)
           end; reflexivity.
Qed.

End FetchedRows.

(** ** Saving a typed time of day *)

Section Saving.

(** The handler decides as the preview does, on the trimmed input. *)
Lemma handleSaveInGameTime_request_by_preview
    (inGameTimeInputs : Obj string) (nowIso id : string) :
  handleSaveInGameTime_request inGameTimeInputs nowIso id
  = match find (fun item => String.eqb (Resource.id item) id) RESOURCES with
    | None => ShowError "Ressource inconnue."
    | Some resource =>
        let value := inputOf inGameTimeInputs id in
        match getPhasePreviewFromInGameTime value with
        | Some _ => WriteRow (Resource.label resource) value nowIso
        | None =>
            if JS.truthy (Some value)
            then ShowError "Format de temps Minecraft invalide. Utilisez HH:MM."
            else ShowError "Veuillez saisir une heure Minecraft au format HH:MM."
        end
    end.
Proof.
  unfold handleSaveInGameTime_request, getPhasePreviewFromInGameTime, inputOf.
  destruct (find _ RESOURCES) as [resource|]; [|reflexivity]. cbv zeta.
  generalize (String_trim match Obj_get inGameTimeInputs id with
                          | Some input => input
                          | None => ""
                          end).
  intros value.
  destruct (JS.truthy (Some value)); cbn [negb]; [|reflexivity].
  destruct (negb (JS.truthy (JS.element (JS.split ":" value) 0))
            || negb (JS.truthy (JS.element (JS.split ":" value) 1)));
    [reflexivity|].
  destruct (JS.parseInt _) as [hours|]; [|reflexivity].
  destruct (JS.parseInt _) as [minutes|]; [|reflexivity].
  destruct ((hours <? 0) || (hours >? 23) || (minutes <? 0) || (minutes >? 59));
    reflexivity.
Qed.

Lemma find_resource (id : string) (resource : Resource.t) :
  find (fun item => String.eqb (Resource.id item) id) RESOURCES = Some resource ->
  In resource RESOURCES /\ Resource.id resource = id.
Proof.
  intros H. apply find_some in H. destruct H as [Hin E].
  apply String.eqb_eq in E. now split.
Qed.

(** X17.  The handler writes to the store exactly when the identifier is
    that of a tracked resource and the trimmed input has a preview; it then
    writes the trimmed input and [nowIso] for the row of the label of that
    resource. *)
Theorem save_writes_iff_preview (inGameTimeInputs : Obj string)
    (nowIso id : string) :
  let value := inputOf inGameTimeInputs id in
  forall row_text time savedAt,
    handleSaveInGameTime_request inGameTimeInputs nowIso id
    = WriteRow row_text time savedAt
    <-> (exists resource,
            In resource RESOURCES /\ Resource.id resource = id
            /\ row_text = Resource.label resource)
        /\ getPhasePreviewFromInGameTime value <> None
        /\ time = value /\ savedAt = nowIso.
Proof.
  cbv zeta. intros row_text time savedAt.
  rewrite handleSaveInGameTime_request_by_preview.
  destruct (find _ RESOURCES) as [resource|] eqn:F.
  - destruct (find_resource _ _ F) as [Hin Hid]. cbv zeta.
    destruct (getPhasePreviewFromInGameTime (inputOf inGameTimeInputs id))
      as [details|] eqn:P.
    + split.
      * intros [= <- <- <-]. repeat split; try discriminate. eauto.
      * intros ((resource' & Hin' & Hid' & ->) & _ & -> & ->).
        do 3 f_equal.
        assert (find (fun item => String.eqb (Resource.id item) id) RESOURCES
                = Some resource') as F'.
        { rewrite <- Hid'. clear - Hin'.
          destruct Hin' as [<-|[<-|[<-|[<-|[]]]]]; reflexivity. }
        congruence.
    + split.
      * destruct (JS.truthy _); discriminate.
      * intros (_ & N & _). now contradiction N.
  - split; [discriminate|].
    intros ((resource & Hin & Hid & _) & _). exfalso. rewrite <- Hid in F.
    destruct Hin as [<-|[<-|[<-|[<-|[]]]]]; discriminate F.
Qed.

Variable Date_parse : string -> option Z.

(** X18.  What the handler writes is a valid reference: a row that holds
    the written time of day and the written timestamp, the timestamp being
    a date, carries a reference whose hour and minute are those that the
    preview of the written time was computed from. *)
Theorem saved_time_is_a_valid_reference (inGameTimeInputs : Obj string)
    (nowIso id row_text time savedAt : string) (row : SpawnTimerRow)
    (savedAtMs : Z) :
  handleSaveInGameTime_request inGameTimeInputs nowIso id
  = WriteRow row_text time savedAt ->
  ingame_time row = Some time ->
  ingame_time_saved_at row = Some savedAt ->
  savedAt <> "" -> Date_parse savedAt = Some savedAtMs ->
  exists hours minutes,
    observed Date_parse (Some row) savedAtMs hours minutes
    /\ getPhasePreviewFromInGameTime time
       = Some (getMinecraftPhaseFromMinutes (inject_Z (hours * 60 + minutes))).
Proof.
  intros R Ht Hsa Hne Hd.
  rewrite handleSaveInGameTime_request_by_preview in R.
  destruct (find _ RESOURCES) as [resource|]; [|discriminate R].
  cbv zeta in R.
  destruct (getPhasePreviewFromInGameTime (inputOf inGameTimeInputs id))
    as [details|] eqn:P; [|destruct (JS.truthy _); discriminate R].
  injection R as <- <- <-.
  pose proof P as P'. apply getPhasePreviewFromInGameTime_inv in P'.
  destruct P' as (hp & mp & others & h & m & Hs & Hh & Rh & Hm & Rm & ->).
  exists h, m. split; [|exact P].
  exists row, (inputOf inGameTimeInputs id), nowIso, hp, mp, others.
  repeat split; try reflexivity; assumption || lia.
Qed.

End Saving.

(** ** The client of the store is created once *)

Section ClientOnce.

Variable SupabaseClient : Type.
Variable createClient : string -> string -> bool -> SupabaseClient.

Local Abbreviation run := (calls SupabaseClient createClient).

Lemma calls_with_client (envs : list Env) (client : SupabaseClient) :
  run envs (Some client) = (map (fun _ => Returned _ client) envs, Some client).
Proof.
  induction envs as [|env envs IH]; [reflexivity|].
  cbn [calls getSupabaseBrowserClient map]. rewrite IH. reflexivity.
Qed.

(** X19.  The client is created once: when the first call finds both
    variables of the environment set, it creates a client without a
    persisted session, and every later call returns that same client,
    whatever the environment has become; when a variable is missing or
    empty, the call throws and keeps no client, so that a later call tries
    again. *)
Theorem client_is_created_once (env : Env) (later : list Env) :
  (forall url key,
      NEXT_PUBLIC_SUPABASE_URL env = Some url -> url <> "" ->
      NEXT_PUBLIC_SUPABASE_ANON_KEY env = Some key -> key <> "" ->
      let client := createClient url key false in
      run (env :: later) None
      = (map (fun _ => Returned _ client) (env :: later), Some client))
  /\ (JS.truthy (NEXT_PUBLIC_SUPABASE_URL env) = false
      \/ JS.truthy (NEXT_PUBLIC_SUPABASE_ANON_KEY env) = false ->
      exists message,
        run (env :: later) None
        = (ThrownError _ message :: fst (run later None), snd (run later None))).
Proof.
  split.
  - intros url key Hu Nu Hk Nk. cbv zeta.
    cbn [calls getSupabaseBrowserClient]. rewrite Hu, Hk.
    rewrite (truthy_nonempty url Nu), (truthy_nonempty key Nk).
    cbn [negb orb JS.ToString]. rewrite calls_with_client. reflexivity.
  - intros H. eexists. cbn [calls getSupabaseBrowserClient].
    assert (negb (JS.truthy (NEXT_PUBLIC_SUPABASE_URL env))
            || negb (JS.truthy (NEXT_PUBLIC_SUPABASE_ANON_KEY env)) = true) as ->.
    { destruct H as [-> | ->]; [reflexivity|]. apply orb_true_r. }
    destruct (run later None) as [outcomes final]. reflexivity.
Qed.

End ClientOnce.

(** ** A next spawn that is not a date *)

Section InvalidDate.

Variable Date_parse : string -> option Z.

Lemma WithNaN_deriveMinecraftClockAtDate_withReference row target :
  WithNaN.deriveMinecraftClockAtDate Date_parse row target
  = withReference Date_parse row
      (fun savedAtMs hours minutes =>
         WithNaN.getMinecraftPhaseFromMinutes
           (WithNaN.add
              (Some (inject_Z (hours * 60 + minutes)))
              (WithNaN.mul
                 (WithNaN.max (Some 0%Q)
                    (WithNaN.div
                       (WithNaN.sub (WithNaN.of_Z target)
                                    (Some (inject_Z savedAtMs)))
                       (Some 1000%Q)))
                 (Some (60 / MINECRAFT_HOUR_SECONDS)%Q)))).
Proof. reflexivity. Qed.

(** On a number that is not [NaN] the lookup is the lookup of the clock
    engine. *)
Lemma WithNaN_getMinecraftPhaseFromMinutes_Some (minutes : Q) :
  WithNaN.getMinecraftPhaseFromMinutes (Some minutes)
  = getMinecraftPhaseFromMinutes minutes.
Proof. reflexivity. Qed.

Lemma WithNaN_deriveMinecraftClockAtDate_Some (row : option SpawnTimerRow)
    (target : Z) :
  WithNaN.deriveMinecraftClockAtDate Date_parse row (Some target)
  = deriveMinecraftClockAtDate Date_parse row target.
Proof.
  rewrite WithNaN_deriveMinecraftClockAtDate_withReference,
    deriveMinecraftClockAtDate_withReference.
  destruct (withReference_cases Date_parse row) as [(s & h & m & _ & E)|E];
    rewrite !E; [|reflexivity].
  do 2 f_equal.
  cbn [WithNaN.of_Z option_map WithNaN.sub WithNaN.div WithNaN.max WithNaN.mul
       WithNaN.add WithNaN.lift2].
  rewrite WithNaN_getMinecraftPhaseFromMinutes_Some.
  apply getMinecraftPhaseFromMinutes_congr, normalizedMinutes_comp.
  unfold targetTotalMinutes.
  assert (inject_Z target - inject_Z s == inject_Z (target - s))%Q as ->
      by (rewrite inject_Z_sub; reflexivity).
  reflexivity.
Qed.

(** With an invalid date as target, a valid reference gives the night and
    a label made of [NaN]. *)
Lemma invalid_target (row : option SpawnTimerRow) (savedAtMs hours minutes : Z) :
  observed Date_parse row savedAtMs hours minutes ->
  WithNaN.deriveMinecraftClockAtDate Date_parse row None
  = JS.Normal (Some {| phase := Nuit; timeLabel := Some "NaN:NaN" |}).
Proof.
  intros Ho. rewrite WithNaN_deriveMinecraftClockAtDate_withReference.
  now rewrite (withReference_observed Date_parse _ _ _ _ _ Ho).
Qed.

(** X20.  The prediction stored for a row: [null] without a next spawn;
    the phase at the next spawn when it is a date; and, when the next spawn
    is not a date while the reference is valid, not [null] but the night
    with the label NaN:NaN. *)
Theorem prediction_at_spawn (row : SpawnTimerRow) :
  (next_spawn row = None \/ next_spawn row = Some "" ->
   WithNaN.predictedAtSpawn Date_parse (Some row) = JS.Normal None)
  /\ (forall spawn target,
         next_spawn row = Some spawn -> spawn <> "" ->
         Date_parse spawn = Some target ->
         WithNaN.predictedAtSpawn Date_parse (Some row)
         = deriveMinecraftClockAtDate Date_parse (Some row) target)
  /\ (forall spawn savedAtMs hours minutes,
         next_spawn row = Some spawn -> spawn <> "" ->
         Date_parse spawn = None ->
         observed Date_parse (Some row) savedAtMs hours minutes ->
         WithNaN.predictedAtSpawn Date_parse (Some row)
         = JS.Normal (Some {| phase := Nuit; timeLabel := Some "NaN:NaN" |})).
Proof.
  unfold WithNaN.predictedAtSpawn. cbn [JS.optional JS.member JS.bind].
  split; [|split].
  - intros [-> | ->]; reflexivity.
  - intros spawn target -> Hne Hd. rewrite (truthy_nonempty spawn Hne).
    cbn [JS.Date_getTime]. rewrite Hd.
    apply WithNaN_deriveMinecraftClockAtDate_Some.
  - intros spawn s h m -> Hne Hd Ho. rewrite (truthy_nonempty spawn Hne).
    cbn [JS.Date_getTime]. rewrite Hd. exact (invalid_target _ _ _ _ Ho).
Qed.

End InvalidDate.

(** ** These properties on concrete rows *)

Lemma phase_lookup_is_periodic_witness :
  isSafeInteger (-10) /\ isSafeInteger (-10 + 1 * 1440)
  /\ getMinecraftPhaseFromMinutes (inject_Z (-10 + 1 * 1440))
     = getMinecraftPhaseFromMinutes (inject_Z (-10)).
Proof.
  assert (isSafeInteger (-10) /\ isSafeInteger (-10 + 1 * 1440)) as [A B]
      by (unfold isSafeInteger; simpl; lia).
  split; [exact A|]. split; [exact B|].
  exact (proj1 (phase_lookup_is_periodic (-10) 1 A B)).
Defined.

Lemma one_day_per_1200_seconds_witness :
  1704067200000 <= 1704067227000
  /\ withinHorizon 1704067200000 (1704067227000 + 1200 * 1000)
  /\ deriveLiveMinecraftClock IsoDate.parse
       (Some (referenceRow "06:30:45" "2024-01-01T00:00:00Z"))
       (1704067227000 + 1200 * 1000)
     = deriveLiveMinecraftClock IsoDate.parse
         (Some (referenceRow "06:30:45" "2024-01-01T00:00:00Z")) 1704067227000.
Proof.
  assert (withinHorizon 1704067200000 (1704067227000 + 1200 * 1000)) as H
      by (unfold withinHorizon, timeValue, horizonMs; lia).
  split; [lia|]. split; [exact H|].
  apply (one_day_per_1200_seconds IsoDate.parse
           (Some (referenceRow "06:30:45" "2024-01-01T00:00:00Z"))
           1704067200000 6 30 1704067227000 observed_0630); [lia|exact H].
Defined.

Lemma preview_is_phase_at_observation_witness :
  deriveMinecraftClockAtDate IsoDate.parse
    (Some (referenceRow "06:30:45" "2024-01-01T00:00:00Z")) 1704067200000
  = JS.Normal (getPhasePreviewFromInGameTime "06:30:45").
Proof.
  apply (preview_is_phase_at_observation IsoDate.parse
           (referenceRow "06:30:45" "2024-01-01T00:00:00Z")
           "06:30:45" "2024-01-01T00:00:00Z" 1704067200000 1704067200000);
    reflexivity || discriminate || lia.
Defined.

Lemma preview_label_is_typed_time_witness :
  getPhasePreviewFromInGameTime " 7: 5"
  = Some {| phase := Day; timeLabel := Some "07:05" |}
  /\ exists hoursPart minutesPart others hours minutes,
      JS.split ":" " 7: 5" = hoursPart :: minutesPart :: others
      /\ JS.parseInt hoursPart = Some hours /\ 0 <= hours <= 23
      /\ JS.parseInt minutesPart = Some minutes /\ 0 <= minutes <= 59
      /\ Some "07:05" = Some (hhmm hours minutes).
Proof.
  split; [reflexivity|].
  apply (preview_label_is_typed_time " 7: 5"
           {| phase := Day; timeLabel := Some "07:05" |}).
  reflexivity.
Defined.

Lemma displayed_clock_previews_itself_witness :
  getPhasePreviewFromInGameTime "06:32"
  = Some {| phase := Day; timeLabel := Some "06:32" |}.
Proof.
  apply (displayed_clock_previews_itself IsoDate.parse
           (Some (referenceRow "06:00" "2024-01-01T00:00:00Z")) 1704067227000
           {| clock := "06:32";
              phaseDetails := {| phase := Day; timeLabel := Some "06:32" |} |}).
  reflexivity.
Defined.

Lemma live_clock_from_midnight_witness :
  0 <= 27 < 1200
  /\ F64.deriveLiveMinecraftClock IsoDate.parse
       (Some (referenceRow "00:00" "2024-01-01T00:00:00Z"))
       (1704067200000 + 27 * 1000)
     = deriveLiveMinecraftClock IsoDate.parse
         (Some (referenceRow "00:00" "2024-01-01T00:00:00Z"))
         (1704067200000 + 27 * 1000).
Proof.
  split; [lia|].
  exact (proj1 (proj1 live_clock_from_midnight 27 ltac:(lia))).
Defined.

Lemma phase_lookup_readings_agree_witness :
  -1440 <= -10 <= 1440
  /\ F64.getMinecraftPhaseFromMinutes (F64.of_Z (-10))
     = getMinecraftPhaseFromMinutes (inject_Z (-10)).
Proof.
  split; [lia|].
  exact (proj1 (phase_lookup_readings_agree (-10) ltac:(lia))).
Defined.

Lemma derivations_readings_agree_witness :
  In (6, 27) sampledTimes /\ In 1000000000000 sampledDelays
  /\ F64.deriveLiveMinecraftClock IsoDate.parse
       (Some (referenceRow (hhmm 6 27) "2024-01-01T00:00:00Z"))
       (1704067200000 + 1000000000000)
     = deriveLiveMinecraftClock IsoDate.parse
         (Some (referenceRow (hhmm 6 27) "2024-01-01T00:00:00Z"))
         (1704067200000 + 1000000000000).
Proof.
  assert (In (6, 27) sampledTimes) as T by (cbn; tauto).
  assert (In 1000000000000 sampledDelays) as H by (cbn; tauto).
  split; [exact T|]. split; [exact H|].
  exact (proj1 (derivations_readings_agree 6 27 1000000000000 T H)).
Defined.

Lemma display_by_delay_witness :
  30000 <= 1704067260000 - 1704067200000 < 90000
  /\ getDisplayValue IsoDate.parse 1704067200000 (fun _ => "00:01")
       (Some (spawnRow None (Some "2024-01-01T00:01:00Z") None None))
     = JS.Normal "Dans 1 minute".
Proof.
  split; [lia|].
  apply (display_by_delay IsoDate.parse 1704067200000 (fun _ => "00:01")
           (spawnRow None (Some "2024-01-01T00:01:00Z") None None)
           "2024-01-01T00:01:00Z" 1704067260000);
    reflexivity || discriminate || lia.
Defined.

Lemma display_placeholder_witness :
  IsoDate.parse "demain" = None
  /\ getDisplayValue IsoDate.parse 1704067200000 (fun _ => "00:01")
       (Some (spawnRow None (Some "demain") None None))
     = JS.Normal "À redéfinir".
Proof.
  split; [reflexivity|].
  apply (display_placeholder IsoDate.parse 1704067200000 (fun _ => "00:01"))
    with (spawn := "demain"); reflexivity.
Defined.

Lemma normalized_keeps_last_row_of_label_witness :
  Obj_get (normalizedOf fetchedRows) "ressources-01"
  = Some (spawnRow (Some "Ressources-01") None (Some "07:45") None).
Proof.
  apply (normalized_keeps_last_row_of_label fetchedRows
           {| Resource.id := "ressources-01"; Resource.label := "Ressources-01";
              Resource.icon := "/pokeball.svg" |}).
  cbn. tauto.
Defined.

Lemma normalized_rows_belong_witness :
  exists resource,
    In resource RESOURCES
    /\ "ressources-01" = Resource.id resource
    /\ Some "Ressources-01" = Some (Resource.label resource)
    /\ In (spawnRow (Some "Ressources-01") None (Some "07:45") None) fetchedRows.
Proof.
  apply (normalized_rows_belong fetchedRows "ressources-01"
           (spawnRow (Some "Ressources-01") None (Some "07:45") None)).
  reflexivity.
Defined.

Lemma inputs_filled_from_rows_witness :
  Obj_get (inGameTimeInputsOf (normalizedOf fetchedRows)) "ressources-01"
  = Some "07:45"
  /\ Obj_get (inGameTimeInputsOf (normalizedOf fetchedRows)) "construction-02"
     = Some "".
Proof.
  split.
  - apply (inputs_filled_from_rows fetchedRows
             {| Resource.id := "ressources-01"; Resource.label := "Ressources-01";
                Resource.icon := "/pokeball.svg" |}).
    cbn. tauto.
  - apply (inputs_filled_from_rows fetchedRows
             {| Resource.id := "construction-02";
                Resource.label := "Construction-02";
                Resource.icon := "/icon.svg" |}).
    cbn. tauto.
Defined.

Lemma save_writes_iff_preview_witness :
  getPhasePreviewFromInGameTime "06:30" <> None
  /\ "06:30" = inputOf [("ressources-01", " 06:30 ")] "ressources-01".
Proof.
  pose proof (proj1 (save_writes_iff_preview [("ressources-01", " 06:30 ")]
                       "2024-01-01T00:00:00.000Z" "ressources-01"
                       "Ressources-01" "06:30" "2024-01-01T00:00:00.000Z")
                eq_refl) as (_ & P & T & _).
  split; [exact P|exact T].
Defined.

Lemma saved_time_is_a_valid_reference_witness :
  exists hours minutes,
    observed IsoDate.parse
      (Some (referenceRow "06:30" "2024-01-01T00:00:00.000Z"))
      1704067200000 hours minutes
    /\ getPhasePreviewFromInGameTime "06:30"
       = Some (getMinecraftPhaseFromMinutes (inject_Z (hours * 60 + minutes))).
Proof.
  apply (saved_time_is_a_valid_reference IsoDate.parse
           [("ressources-01", " 06:30 ")] "2024-01-01T00:00:00.000Z"
           "ressources-01" "Ressources-01" "06:30" "2024-01-01T00:00:00.000Z"
           (referenceRow "06:30" "2024-01-01T00:00:00.000Z") 1704067200000);
    reflexivity || discriminate.
Defined.

Lemma client_is_created_once_witness :
  calls (string * string * bool) (fun url key persist => (url, key, persist))
    [ {| NEXT_PUBLIC_SUPABASE_URL := Some "https://store.example";
         NEXT_PUBLIC_SUPABASE_ANON_KEY := Some "key" |};
      {| NEXT_PUBLIC_SUPABASE_URL := None;
         NEXT_PUBLIC_SUPABASE_ANON_KEY := None |} ]
    None
  = ([ Returned _ ("https://store.example", "key", false);
       Returned _ ("https://store.example", "key", false) ],
     Some ("https://store.example", "key", false)).
Proof.
  apply (proj1 (client_is_created_once (string * string * bool)
                  (fun url key persist => (url, key, persist))
                  {| NEXT_PUBLIC_SUPABASE_URL := Some "https://store.example";
                     NEXT_PUBLIC_SUPABASE_ANON_KEY := Some "key" |}
                  [ {| NEXT_PUBLIC_SUPABASE_URL := None;
                       NEXT_PUBLIC_SUPABASE_ANON_KEY := None |} ])
           "https://store.example" "key");
    reflexivity || discriminate.
Defined.

Lemma prediction_at_spawn_witness :
  IsoDate.parse "demain" = None
  /\ WithNaN.predictedAtSpawn IsoDate.parse
       (Some (spawnRow None (Some "demain") (Some "06:30")
                (Some "2024-01-01T00:00:00Z")))
     = JS.Normal (Some {| phase := Nuit; timeLabel := Some "NaN:NaN" |}).
Proof.
  split; [reflexivity|].
  apply (proj2 (proj2 (prediction_at_spawn IsoDate.parse
                         (spawnRow None (Some "demain") (Some "06:30")
                            (Some "2024-01-01T00:00:00Z"))))
           "demain" 1704067200000 6 30); try reflexivity; try discriminate.
  exists (spawnRow None (Some "demain") (Some "06:30")
            (Some "2024-01-01T00:00:00Z")),
    "06:30", "2024-01-01T00:00:00Z", "06", "30", [].
  repeat split; try reflexivity; try lia. discriminate.
Defined.
